(** * Inventory manager (inventory_system.py): a shallow embedding and its properties

    The Python class [InventoryManager] keeps one dictionary, [stock_data],
    from item names to quantities.  This file embeds its methods as
    computations over an explicit world (the dictionary, the caller's list
    objects, the files, the clock and the logging calls) and proves the
    properties of the specification about them.

    - A [str] is a list of code points, an [int] is a [Z], and [bool] is a
      subclass of [int] as in Python.
    - A [dict] is the list of its entries in insertion order.
    - A method is a function from the world to a result (a value or a raised
      exception) and the world after it; a raised exception keeps what was
      written before it.
    - [json] and the file system belong to the host: the methods are stated
      over any codec, and [Json] gives the one CPython ships, for the
      dictionaries of quantities the store writes. *)

From Stdlib Require Import ZArith List String Ascii Bool Lia.
From stdpp Require Import gmap strings list fin_maps pretty sorting.

Set Warnings "-register-all,-abstract-large-number".

Local Open Scope Z_scope.

(** ** Python strings

    A Python [str] is a sequence of Unicode code points. *)

Abbreviation str := (list N).

(** The [str] written by an ASCII literal. *)
Fixpoint py (s : string) : str :=
  match s with
  | EmptyString => []
  | String a rest => N_of_ascii a :: py rest
  end.

(** [str.isspace] on one code point: the code points CPython's [str.strip()]
    removes (tab to carriage return, the four separators 0x1C-0x1F, space,
    NEL, no-break space and the Unicode spaces). *)
Definition isspace (c : N) : bool :=
  ((9 <=? c) && (c <=? 13) || (28 <=? c) && (c <=? 32)
   || (c =? 133) || (c =? 160) || (c =? 5760)
   || (8192 <=? c) && (c <=? 8202)
   || (c =? 8232) || (c =? 8233) || (c =? 8239) || (c =? 8287)
   || (c =? 12288))%N.

Fixpoint lstrip (s : str) : str :=
  match s with
  | [] => []
  | c :: rest => if isspace c then lstrip rest else s
  end.

Definition rstrip (s : str) : str := rev (lstrip (rev s)).

(** [s.strip()] *)
Definition strip (s : str) : str := rstrip (lstrip s).

(** ** Python values *)

(** The instances of Python's [int]: [bool] is a subclass of [int], so
    [True] and [False] pass [isinstance(v, int)] and count as 1 and 0. *)
Inductive pyint :=
| PInt (z : Z)
| PBool (b : bool).

Definition int_val (i : pyint) : Z :=
  match i with
  | PInt z => z
  | PBool b => if b then 1 else 0
  end.

(** The values a caller or the JSON decoder can hand to the methods.  A float
    is kept as its literal: no method ever computes with one. *)
Inductive pyvalue :=
| PyNone
| PyBool (b : bool)
| PyInt (z : Z)
| PyFloat (literal : str)
| PyStr (s : str)
| PyList (elems : list pyvalue)
| PyDict (items : list (pyvalue * pyvalue)).

(** [isinstance(v, str)], with the string when it holds. *)
Definition as_str (v : pyvalue) : option str :=
  match v with
  | PyStr s => Some s
  | _ => None
  end.

(** [isinstance(v, int)], with the integer object when it holds. *)
Definition as_int (v : pyvalue) : option pyint :=
  match v with
  | PyInt z => Some (PInt z)
  | PyBool b => Some (PBool b)
  | _ => None
  end.

Definition of_int (i : pyint) : pyvalue :=
  match i with
  | PInt z => PyInt z
  | PBool b => PyBool b
  end.

(** [str(i)], as an f-string field prints it. *)
Definition str_of_int (i : pyint) : str :=
  match i with
  | PInt z => py (pretty z)
  | PBool true => py "True"
  | PBool false => py "False"
  end.

(** ** Dictionaries with string keys

    A Python [dict] keeps its entries in insertion order; assigning to a
    key that is present keeps its place, a new key goes last. *)
Module Dict.
Section ops.
Context {V : Type}.

(** [d.get(k)] *)
Fixpoint get (k : str) (d : list (str * V)) : option V :=
  match d with
  | [] => None
  | (k', v) :: rest => if decide (k' = k) then Some v else get k rest
  end.

(** [d[k] = v] *)
Fixpoint set (k : str) (v : V) (d : list (str * V)) : list (str * V) :=
  match d with
  | [] => [(k, v)]
  | (k', v') :: rest =>
      if decide (k' = k) then (k, v) :: rest else (k', v') :: set k v rest
  end.

(** [del d[k]]; a dictionary holds [k] once, see [wf]. *)
Fixpoint del (k : str) (d : list (str * V)) : list (str * V) :=
  match d with
  | [] => []
  | (k', v') :: rest =>
      if decide (k' = k) then del k rest else (k', v') :: del k rest
  end.

(** [k in d] *)
Definition mem (k : str) (d : list (str * V)) : bool :=
  match get k d with Some _ => true | None => false end.

(** [list(d)] *)
Definition keys (d : list (str * V)) : list str := d.*1.

(** A dictionary holds each key once. *)
Definition wf (d : list (str * V)) : Prop := NoDup (keys d).
End ops.
End Dict.

(** ** Exceptions *)

Inductive exn_class :=
| BaseException | Exception
| TypeError | RuntimeError | RecursionError
| LookupError | KeyError
| ValueError | JSONDecodeError
| UnicodeError | UnicodeDecodeError | UnicodeEncodeError
| OSError | FileNotFoundError | PermissionError | IsADirectoryError.

#[global] Instance exn_class_eq_dec : EqDecision exn_class.
Proof. solve_decision. Defined.

(** The class each exception class derives from. *)
Definition base (c : exn_class) : option exn_class :=
  match c with
  | BaseException => None
  | Exception => Some BaseException
  | TypeError | RuntimeError | LookupError | ValueError | OSError => Some Exception
  | RecursionError => Some RuntimeError
  | KeyError => Some LookupError
  | JSONDecodeError | UnicodeError => Some ValueError
  | UnicodeDecodeError | UnicodeEncodeError => Some UnicodeError
  | FileNotFoundError | PermissionError | IsADirectoryError => Some OSError
  end.

Fixpoint issubclass_upto (n : nat) (c d : exn_class) : bool :=
  bool_decide (c = d) ||
  match n, base c with
  | S n', Some b => issubclass_upto n' b d
  | _, _ => false
  end.

(** [issubclass(c, d)]: no chain of bases is longer than four. *)
Definition issubclass (c d : exn_class) : bool := issubclass_upto 4 c d.

Record exn := Exn { exn_type : exn_class; exn_message : str }.

(** What an [except d:] clause tests. *)
Definition isinstance (e : exn) (d : exn_class) : bool :=
  issubclass (exn_type e) d.

Inductive result (A : Type) :=
| Ok (a : A)
| Raise (e : exn).
Arguments Ok {A} a.
Arguments Raise {A} e.

#[global] Instance result_ret : MRet result := fun A a => Ok a.
#[global] Instance result_bind : MBind result := fun A B f r =>
  match r with
  | Ok a => f a
  | Raise e => Raise e
  end.

(** ** The world the methods run in *)

(** What is at a path: a file with its text, a directory, or a file the
    process may not open.  A path that is not in the map does not exist. *)
Inductive fnode :=
| File (content : str)
| Directory
| NoAccess.

Record datetime := Datetime {
  year : N; month : N; day : N;
  hour : N; minute : N; second : N; microsecond : N }.

Inductive level := DEBUG | INFO | WARNING | ERROR.

Inductive log_arg :=
| ArgValue (v : pyvalue)
| ArgExn (e : exn).

(** One call of [logging.debug/info/warning/error]: the level, the format
    string and the arguments, as the logging module records them. *)
Record log_record := LogRecord {
  levelname : level; msg : string; args : list log_arg }.

(** Addresses of the list objects callers own. *)
Abbreviation loc := positive.

Record world := World {
  stock_data : list (str * pyint);   (* self.stock_data *)
  heap : gmap loc (list str);        (* the list objects alive, by address *)
  files : gmap str fnode;            (* the file system, by path *)
  now : datetime;                    (* what datetime.now() reads *)
  logged : list log_record           (* the logging calls made so far *)
}.

Definition set_stock_data (d : list (str * pyint)) (w : world) : world :=
  World d (heap w) (files w) (now w) (logged w).
Definition set_heap (h : gmap loc (list str)) (w : world) : world :=
  World (stock_data w) h (files w) (now w) (logged w).
Definition set_files (f : gmap str fnode) (w : world) : world :=
  World (stock_data w) (heap w) f (now w) (logged w).
Definition set_logged (l : list log_record) (w : world) : world :=
  World (stock_data w) (heap w) (files w) (now w) l.

(** ** Computations: state passing with exceptions

    A raised exception keeps the state reached so far, as in Python. *)
Definition M (A : Type) : Type := world -> result A * world.

#[global] Instance M_ret : MRet M := fun A a w => (Ok a, w).
#[global] Instance M_bind : MBind M := fun A B f m w =>
  match m w with
  | (Ok a, w') => f a w'
  | (Raise e, w') => (Raise e, w')
  end.

Definition raise {A} (c : exn_class) (message : str) : M A :=
  fun w => (Raise (Exn c message), w).

Definition reads {A} (f : world -> A) : M A := fun w => (Ok (f w), w).
Definition modify (f : world -> world) : M unit := fun w => (Ok tt, f w).

(** [try: body except ...: handler]: [handler e] is [None] when no clause
    matches [e], and the exception goes on to the caller. *)
Definition try_except {A} (body : M A) (handler : exn -> option (M A)) : M A :=
  fun w =>
    match body w with
    | (Ok a, w') => (Ok a, w')
    | (Raise e, w') =>
        match handler e with
        | Some h => h w'
        | None => (Raise e, w')
        end
    end.

Definition logging (l : level) (m : string) (a : list log_arg) : M unit :=
  modify (fun w => set_logged (logged w ++ [LogRecord l m a]) w).

(** [[]]: a new list object at an address not in use. *)
Definition new_list : M loc := fun w =>
  let l := fresh (dom (heap w)) in
  (Ok l, set_heap (<[l := []]> (heap w)) w).

(** [logs.append(line)] on the list object at [l]. *)
Definition list_append (l : loc) (line : str) : M unit :=
  modify (fun w => set_heap (alter (fun lines => lines ++ [line]) l (heap w)) w).

(** [n] in decimal, zero-padded to [width] digits ([%04d], [%02d]). *)
Definition pad (width : nat) (n : N) : str :=
  let digits := py (pretty n) in
  replicate (width - length digits) 48%N ++ digits.

(** [t.isoformat(timespec="seconds")] for a datetime without time zone. *)
Definition isoformat_seconds (t : datetime) : str :=
  pad 4 (year t) ++ py "-" ++ pad 2 (month t) ++ py "-" ++ pad 2 (day t)
  ++ py "T" ++ pad 2 (hour t) ++ py ":" ++ pad 2 (minute t)
  ++ py ":" ++ pad 2 (second t).

(** ** The methods of [InventoryManager] *)

(** [self.stock_data[item]], which raises [KeyError] on a key that is absent. *)
Definition stock_getitem (item : str) : M pyint := fun w =>
  match Dict.get item (stock_data w) with
  | Some v => (Ok v, w)
  | None => (Raise (Exn KeyError item), w)
  end.

(** [InventoryManager()]: the world with an empty [stock_data]. *)
Definition init (w : world) : world := set_stock_data [] w.

(** The guard every method taking an item starts with:
    [if not isinstance(item, str) or not item.strip(): raise ValueError(...)]. *)
Definition require_item (item : pyvalue) : M str :=
  match as_str item with
  | Some s =>
      if bool_decide (strip s = []) then
        raise ValueError (py "item must be a non-empty string")
      else mret s
  | None => raise ValueError (py "item must be a non-empty string")
  end.

(** The audit line [f"{timestamp}: Added {qty} of {item}"]. *)
Definition audit_line (timestamp : str) (qty : pyint) (item : str) : str :=
  timestamp ++ py ": Added " ++ str_of_int qty ++ py " of " ++ item.

(** [add_item(item, qty, logs)]; the defaults are [qty = PyInt 0] and
    [logs = None]. *)
Definition add_item (item qty : pyvalue) (logs : option loc) : M unit :=
  s ← require_item item;
  q ← match as_int qty with
      | Some q =>
          if int_val q <? 0 then
            raise ValueError (py "qty must be a non-negative integer")
          else mret q
      | None => raise ValueError (py "qty must be a non-negative integer")
      end;
  current ← reads (fun w => default (PInt 0) (Dict.get s (stock_data w)));
  modify (fun w =>
    set_stock_data (Dict.set s (PInt (int_val current + int_val q)) (stock_data w)) w);;
  logs ← match logs with
         | None => new_list
         | Some l => mret l
         end;
  timestamp ← reads (fun w => isoformat_seconds (now w));
  list_append logs (audit_line timestamp q s);;
  total ← stock_getitem s;
  logging DEBUG "Added %d of %s (new total=%d)"
    [ArgValue qty; ArgValue item; ArgValue (of_int total)].

(** [remove_item(item, qty)] *)
Definition remove_item (item qty : pyvalue) : M unit :=
  s ← require_item item;
  q ← match as_int qty with
      | Some q =>
          if int_val q <=? 0 then
            raise ValueError (py "qty must be a positive integer")
          else mret q
      | None => raise ValueError (py "qty must be a positive integer")
      end;
  present ← reads (fun w => Dict.mem s (stock_data w));
  (if negb present then
     raise KeyError (py "Item '" ++ s ++ py "' not found in inventory")
   else mret tt);;
  current ← stock_getitem s;
  let new_qty := int_val current - int_val q in
  (if 0 <? new_qty then
     modify (fun w => set_stock_data (Dict.set s (PInt new_qty) (stock_data w)) w)
   else
     modify (fun w => set_stock_data (Dict.del s (stock_data w)) w));;
  remaining ← reads (fun w => Dict.get s (stock_data w));
  logging DEBUG "Removed %d of %s (remaining=%s)"
    [ArgValue qty; ArgValue item;
     ArgValue (match remaining with Some r => of_int r | None => PyNone end)].

(** [get_qty(item)] *)
Definition get_qty (item : pyvalue) : M pyint :=
  s ← require_item item;
  reads (fun w => default (PInt 0) (Dict.get s (stock_data w))).

(** [check_low_items(threshold)]; the default is [threshold = PyInt 5]. *)
Definition check_low_items (threshold : pyvalue) : M (list str) :=
  t ← match as_int threshold with
      | Some t =>
          if int_val t <? 0 then
            raise ValueError (py "threshold must be non-negative")
          else mret t
      | None => raise ValueError (py "threshold must be non-negative")
      end;
  reads (fun w =>
    (filter (fun nq => int_val nq.2 < int_val t) (stock_data w)).*1).

(** ** Persistence

    The JSON codec is the host's: [json_load] is [json.load] on the text of
    a file (it raises [JSONDecodeError] on text that is not JSON) and
    [json_dump] is [json.dump(_, ensure_ascii=False, indent=2)] on a
    dictionary of type [Dict[str, int]], giving the text written. *)
Class JsonCodec := {
  json_load : str -> result pyvalue;
  json_dump : list (str * pyint) -> result str
}.

(** A result of the host's, as a computation. *)
Definition lift {A} (r : result A) : M A := fun w => (r, w).

(** [open(path, "r", encoding="utf-8")] and reading the text. *)
Definition open_read (path : str) : M str := fun w =>
  match files w !! path with
  | None => (Raise (Exn FileNotFoundError path), w)
  | Some Directory => (Raise (Exn IsADirectoryError path), w)
  | Some NoAccess => (Raise (Exn PermissionError path), w)
  | Some (File content) => (Ok content, w)
  end.

(** [open(path, "w", encoding="utf-8")]: the file is created or emptied. *)
Definition open_write (path : str) : M unit := fun w =>
  match files w !! path with
  | Some Directory => (Raise (Exn IsADirectoryError path), w)
  | Some NoAccess => (Raise (Exn PermissionError path), w)
  | _ => (Ok tt, set_files (<[path := File []]> (files w)) w)
  end.

Definition write (path : str) (text : str) : M unit :=
  modify (fun w => set_files (<[path := File text]> (files w)) w).

(** The entries of a dictionary of quantities, as Python values. *)
Definition dict_items (d : list (str * pyint)) : list (pyvalue * pyvalue) :=
  map (fun kv => (PyStr kv.1, of_int kv.2)) d.

(** A dictionary of quantities as a Python value. *)
Definition dict_value (d : list (str * pyint)) : pyvalue := PyDict (dict_items d).

Definition len {A} (l : list A) : pyvalue := PyInt (Z.of_nat (length l)).

(** The test of the loading loop:
    [isinstance(key, str) and isinstance(value, int) and value >= 0]. *)
Definition valid_record (key value : pyvalue) : option (str * pyint) :=
  match as_str key, as_int value with
  | Some k, Some v => if 0 <=? int_val v then Some (k, v) else None
  | _, _ => None
  end.

(** [for key, value in data.items(): ...], with the local [cleaned]. *)
Fixpoint load_records (items : list (pyvalue * pyvalue))
    (cleaned : list (str * pyint)) : M (list (str * pyint)) :=
  match items with
  | [] => mret cleaned
  | (key, value) :: rest =>
      match valid_record key value with
      | Some (k, v) => load_records rest (Dict.set k v cleaned)
      | None =>
          logging WARNING "Ignoring invalid record: %r -> %r"
            [ArgValue key; ArgValue value];;
          load_records rest cleaned
      end
  end.

Section persistence.
Context `{JsonCodec}.

(** The [try] block of [load_data]. *)
Definition load_try (file_path : str) : M unit :=
  text ← open_read file_path;
  data ← lift (json_load text);
  items ← match data with
          | PyDict items => mret items
          | _ => raise ValueError (py "Inventory file must contain a JSON object")
          end;
  cleaned ← load_records items [];
  modify (set_stock_data cleaned);;
  n ← reads (fun w => len (stock_data w));
  logging INFO "Loaded %d items from %s" [ArgValue n; ArgValue (PyStr file_path)].

(** The [except] clauses of [load_data], in their order. *)
Definition load_except (file_path : str) (exc : exn) : option (M unit) :=
  if isinstance exc FileNotFoundError then
    Some (logging INFO "No inventory file found at %s; starting fresh"
            [ArgValue (PyStr file_path)];;
          modify (set_stock_data []))
  else if isinstance exc JSONDecodeError || isinstance exc OSError
          || isinstance exc ValueError then
    Some (logging ERROR "Failed to load from %s: %s"
            [ArgValue (PyStr file_path); ArgExn exc])
  else None.

(** [load_data(file_path)]; the default is ["inventory.json"]. *)
Definition load_data (file_path : str) : M unit :=
  try_except (load_try file_path) (load_except file_path).

(** [save_data(file_path)]; the default is ["inventory.json"].  When
    [json.dump] raises, the file stays as [open] left it. *)
Definition save_data (file_path : str) : M unit :=
  open_write file_path;;
  stock ← reads stock_data;
  text ← lift (json_dump stock);
  write file_path text;;
  n ← reads (fun w => len (stock_data w));
  logging INFO "Saved %d items to %s" [ArgValue n; ArgValue (PyStr file_path)].
End persistence.

(** ** A JSON codec

    The reader follows CPython's [json] scanner (strict strings, the number
    grammar, [NaN] and the infinities, duplicate names keeping the last
    value); the writer is [json.dump] with [ensure_ascii=False] and
    [indent=2] on a dictionary of quantities. *)
Module Json.
Local Open Scope N_scope.

Definition syntax_error {A} (message : string) : result A :=
  Raise (Exn JSONDecodeError (py message)).

Definition is_ws (c : N) : bool :=
  (c =? 32) || (c =? 9) || (c =? 10) || (c =? 13).

Fixpoint skip_ws (s : str) : str :=
  match s with
  | c :: rest => if is_ws c then skip_ws rest else s
  | [] => []
  end.

Definition is_digit (c : N) : bool := (48 <=? c) && (c <=? 57).

Definition hex_digit (c : N) : option N :=
  if is_digit c then Some (c - 48)
  else if (97 <=? c) && (c <=? 102) then Some (c - 87)
  else if (65 <=? c) && (c <=? 70) then Some (c - 55)
  else None.

(** The four hexadecimal digits of a [\uXXXX] escape. *)
Definition hex4 (s : str) : option (N * str) :=
  match s with
  | a :: b :: c :: d :: rest =>
      match hex_digit a, hex_digit b, hex_digit c, hex_digit d with
      | Some a, Some b, Some c, Some d => Some (((a * 16 + b) * 16 + c) * 16 + d, rest)
      | _, _, _, _ => None
      end
  | _ => None
  end.

(** A high surrogate followed by an escaped low surrogate is one code
    point; anything else stays as it is. *)
Definition join_surrogates (hi : N) (s : str) : N * str :=
  if (55296 <=? hi) && (hi <=? 56319) then
    match s with
    | 92 :: 117 :: rest =>
        match hex4 rest with
        | Some (lo, rest') =>
            if (56320 <=? lo) && (lo <=? 57343)
            then (65536 + (hi - 55296) * 1024 + (lo - 56320), rest')
            else (hi, s)
        | None => (hi, s)
        end
    | _ => (hi, s)
    end
  else (hi, s).

Definition unescape (c : N) : option N :=
  if c =? 34 then Some 34        (* a quote *)
  else if c =? 92 then Some 92   (* a backslash *)
  else if c =? 47 then Some 47   (* a slash *)
  else if c =? 98 then Some 8    (* b: backspace *)
  else if c =? 102 then Some 12  (* f: form feed *)
  else if c =? 110 then Some 10  (* n: line feed *)
  else if c =? 114 then Some 13  (* r: carriage return *)
  else if c =? 116 then Some 9   (* t: tab *)
  else None.

(** The text of a string after its opening quote, and what follows the
    closing quote.  [fuel] is the number of characters that may be read. *)
Fixpoint scanstring (fuel : nat) (s : str) : result (str * str) :=
  match fuel, s with
  | O, _ | _, [] => syntax_error "Unterminated string starting at"
  | S fuel, c :: rest =>
      if c =? 34 then Ok ([], rest)
      else if c =? 92 then
        match rest with
        | [] => syntax_error "Unterminated string starting at"
        | e :: rest =>
            if e =? 117 then
              match hex4 rest with
              | None => syntax_error "Invalid \uXXXX escape"
              | Some (hi, rest) =>
                  let '(c, rest) := join_surrogates hi rest in
                  '(text, rest) ← scanstring fuel rest;
                  Ok (c :: text, rest)
              end
            else
              match unescape e with
              | None => syntax_error "Invalid \escape"
              | Some c =>
                  '(text, rest) ← scanstring fuel rest;
                  Ok (c :: text, rest)
              end
        end
      else if c <? 32 then syntax_error "Invalid control character at"
      else '(text, rest) ← scanstring fuel rest;
           Ok (c :: text, rest)
  end.

Fixpoint span_digits (s : str) : str * str :=
  match s with
  | c :: rest =>
      if is_digit c then let '(d, r) := span_digits rest in (c :: d, r)
      else ([], s)
  | [] => ([], [])
  end.

(** [0|[1-9][0-9]*] *)
Definition scan_int_part (s : str) : option (str * str) :=
  match s with
  | c :: rest =>
      if c =? 48 then Some ([48], rest)
      else if is_digit c then let '(d, r) := span_digits rest in Some (c :: d, r)
      else None
  | [] => None
  end.

(** [(\.[0-9]+)?] *)
Definition scan_frac (s : str) : str * str :=
  match s with
  | 46 :: rest =>
      match span_digits rest with
      | ([], _) => ([], s)
      | (d, r) => (46 :: d, r)
      end
  | _ => ([], s)
  end.

(** [([eE][-+]?[0-9]+)?] *)
Definition scan_exp (s : str) : str * str :=
  match s with
  | e :: rest =>
      if (e =? 101) || (e =? 69) then
        let '(sign, rest') :=
          match rest with
          | c :: r => if (c =? 45) || (c =? 43) then ([c], r) else ([], rest)
          | [] => ([], rest)
          end in
        match span_digits rest' with
        | ([], _) => ([], s)
        | (d, r) => (e :: sign ++ d, r)
        end
      else ([], s)
  | [] => ([], s)
  end.

Definition int_of_digits (digits : str) : Z :=
  fold_left (fun acc c => (acc * 10 + Z.of_N (c - 48))%Z) digits 0%Z.

(** A number: an [int] when it has neither fraction nor exponent. *)
Definition scan_number (s : str) : option (pyvalue * str) :=
  let '(sign, rest) :=
    match s with
    | c :: r => if c =? 45 then ([45], r) else ([], s)
    | [] => ([], s)
    end in
  match scan_int_part rest with
  | None => None
  | Some (int_part, rest) =>
      let '(frac, rest) := scan_frac rest in
      let '(exp, rest) := scan_exp rest in
      match frac, exp with
      | [], [] =>
          let z := int_of_digits int_part in
          Some (PyInt (match sign with [] => z | _ => - z end)%Z, rest)
      | _, _ => Some (PyFloat (sign ++ int_part ++ frac ++ exp), rest)
      end
  end.

Fixpoint strip_prefix (p s : str) : option str :=
  match p, s with
  | [], _ => Some s
  | a :: p', b :: s' => if a =? b then strip_prefix p' s' else None
  | _ :: _, [] => None
  end.

Definition scan_constant (s : str) : option (pyvalue * str) :=
  match strip_prefix (py "null") s with Some r => Some (PyNone, r) | None =>
  match strip_prefix (py "true") s with Some r => Some (PyBool true, r) | None =>
  match strip_prefix (py "false") s with Some r => Some (PyBool false, r) | None =>
  match strip_prefix (py "NaN") s with Some r => Some (PyFloat (py "NaN"), r) | None =>
  match strip_prefix (py "Infinity") s with Some r => Some (PyFloat (py "Infinity"), r) | None =>
  match strip_prefix (py "-Infinity") s with Some r => Some (PyFloat (py "-Infinity"), r) | None =>
  None end end end end end end.

(** [pairs[key] = value] while an object is read. *)
Fixpoint setitem (key : str) (value : pyvalue) (pairs : list (pyvalue * pyvalue))
    : list (pyvalue * pyvalue) :=
  match pairs with
  | [] => [(PyStr key, value)]
  | (k, v) :: rest =>
      if decide (as_str k = Some key) then (k, value) :: rest
      else (k, v) :: setitem key value rest
  end.

(** [scan_once]: one value at the head of [s], and the rest of the text.
    [fuel] bounds the calls nested in one another; each of them reads at
    least one character, and [loads] starts with more fuel than the text has
    characters. *)
Fixpoint scan_once (fuel : nat) (s : str) : result (pyvalue * str) :=
  match fuel with
  | O => Raise (Exn RecursionError (py "maximum recursion depth exceeded"))
  | S fuel =>
      match s with
      | [] => syntax_error "Expecting value"
      | c :: rest =>
          if c =? 34 then
            '(text, rest) ← scanstring (length rest) rest;
            Ok (PyStr text, rest)
          else if c =? 123 then
            match skip_ws rest with
            | 125 :: rest => Ok (PyDict [], rest)
            | rest => parse_members fuel rest []
            end
          else if c =? 91 then
            match skip_ws rest with
            | 93 :: rest => Ok (PyList [], rest)
            | rest => parse_elements fuel rest []
            end
          else
            match scan_constant s with
            | Some found => Ok found
            | None =>
                match scan_number s with
                | Some found => Ok found
                | None => syntax_error "Expecting value"
                end
            end
      end
  end
with parse_members (fuel : nat) (s : str) (pairs : list (pyvalue * pyvalue))
    : result (pyvalue * str) :=
  match fuel with
  | O => Raise (Exn RecursionError (py "maximum recursion depth exceeded"))
  | S fuel =>
      match s with
      | 34 :: rest =>
          '(key, rest) ← scanstring (length rest) rest;
          match skip_ws rest with
          | 58 :: rest =>
              '(value, rest) ← scan_once fuel (skip_ws rest);
              let pairs := setitem key value pairs in
              match skip_ws rest with
              | 125 :: rest => Ok (PyDict pairs, rest)
              | 44 :: rest => parse_members fuel (skip_ws rest) pairs
              | _ => syntax_error "Expecting ',' delimiter"
              end
          | _ => syntax_error "Expecting ':' delimiter"
          end
      | _ => syntax_error "Expecting property name enclosed in double quotes"
      end
  end
with parse_elements (fuel : nat) (s : str) (elems : list pyvalue)
    : result (pyvalue * str) :=
  match fuel with
  | O => Raise (Exn RecursionError (py "maximum recursion depth exceeded"))
  | S fuel =>
      '(value, rest) ← scan_once fuel s;
      let elems := elems ++ [value] in
      match skip_ws rest with
      | 93 :: rest => Ok (PyList elems, rest)
      | 44 :: rest => parse_elements fuel (skip_ws rest) elems
      | _ => syntax_error "Expecting ',' delimiter"
      end
  end.

(** [json.loads(text)] *)
Definition loads (text : str) : result pyvalue :=
  match text with
  | 65279 :: _ => syntax_error "Unexpected UTF-8 BOM (decode using utf-8-sig)"
  | _ =>
      '(value, rest) ← scan_once (S (length text)) (skip_ws text);
      match skip_ws rest with
      | [] => Ok value
      | _ => syntax_error "Extra data"
      end
  end.

Definition hex_char (d : N) : N := if d <? 10 then 48 + d else 87 + d.

(** How the encoder writes one character of a string. *)
Definition escape (c : N) : str :=
  if c =? 34 then [92; 34]
  else if c =? 92 then [92; 92]
  else if c =? 8 then [92; 98]
  else if c =? 12 then [92; 102]
  else if c =? 10 then [92; 110]
  else if c =? 13 then [92; 114]
  else if c =? 9 then [92; 116]
  else if c <? 32 then [92; 117; 48; 48; hex_char (c / 16); hex_char (c mod 16)]
  else [c].

Definition encode_string (s : str) : str := [34] ++ flat_map escape s ++ [34].

Definition encode_int (i : pyint) : str :=
  match i with
  | PInt z => py (pretty z)
  | PBool true => py "true"
  | PBool false => py "false"
  end.

Definition newline_indent (depth : nat) : str := 10 :: replicate (2 * depth) 32.

Definition encode_member (kv : str * pyint) : str :=
  encode_string kv.1 ++ py ": " ++ encode_int kv.2.

Fixpoint encode_members (d : list (str * pyint)) : str :=
  match d with
  | [] => []
  | [kv] => encode_member kv
  | kv :: rest => encode_member kv ++ [44] ++ newline_indent 1 ++ encode_members rest
  end.

(** [json.dumps(d, ensure_ascii=False, indent=2)] *)
Definition dumps (d : list (str * pyint)) : str :=
  match d with
  | [] => py "{}"
  | _ => [123] ++ newline_indent 1 ++ encode_members d ++ newline_indent 0 ++ [125]
  end.

(** A surrogate code point has no UTF-8 encoding. *)
Definition encodable (text : str) : bool :=
  forallb (fun c => negb ((55296 <=? c) && (c <=? 57343))) text.

#[global] Instance codec : JsonCodec := {|
  json_load := loads;
  json_dump d :=
    let text := dumps d in
    if encodable text then Ok text
    else Raise (Exn UnicodeEncodeError (py "surrogates not allowed"))
|}.
End Json.

(** ** Standard output, [print_data] and the demonstration

    [print] writes to standard output, which the world of the methods above
    does not hold: a host is that world and the [print] calls made so far,
    each with its arguments. *)
Record host := Host {
  stdout : list (list pyvalue);
  world_of : world
}.

Definition IO (A : Type) : Type := host -> result A * host.

#[global] Instance IO_ret : MRet IO := fun A a h => (Ok a, h).
#[global] Instance IO_bind : MBind IO := fun A B f m h =>
  match m h with
  | (Ok a, h') => f a h'
  | (Raise e, h') => (Raise e, h')
  end.

(** A method of the manager, run on the host's world. *)
Definition call {A} (m : M A) : IO A := fun h =>
  let '(r, w') := m (world_of h) in (r, Host (stdout h) w').

(** [print(a, b, ...)]: one call, with its arguments. *)
Definition print (args : list pyvalue) : IO unit := fun h =>
  (Ok tt, Host (stdout h ++ [args]) (world_of h)).

(** [for x in l: body] *)
Fixpoint for_each {A} (l : list A) (body : A -> IO unit) : IO unit :=
  match l with
  | [] => mret tt
  | x :: rest => body x;; for_each rest body
  end.

(** [try: body except ...: handler] around code that prints. *)
Definition io_try {A} (body : IO A) (handler : exn -> option (IO A)) : IO A :=
  fun h =>
    match body h with
    | (Ok a, h') => (Ok a, h')
    | (Raise e, h') =>
        match handler e with
        | Some k => k h'
        | None => (Raise e, h')
        end
    end.

(** [a <= b] on strings: code point by code point, a prefix first. *)
Fixpoint str_leb (a b : str) : bool :=
  match a, b with
  | [], _ => true
  | _ :: _, [] => false
  | x :: a', y :: b' =>
      if (x <? y)%N then true
      else if (y <? x)%N then false
      else str_leb a' b'
  end.

Definition str_le (a b : str) : Prop := str_leb a b = true.

#[global] Instance str_le_dec a b : Decision (str_le a b).
Proof. unfold str_le. apply _. Defined.

(** [sorted(names)] *)
Definition sorted (names : list str) : list str := merge_sort str_le names.

(** The body of the loop of [print_data]:
    [print(f"{name} -> {self.stock_data[name]}")]. *)
Definition print_item (name : str) : IO unit :=
  v ← call (stock_getitem name);
  print [PyStr (name ++ py " -> " ++ str_of_int v)].

(** [print_data()] *)
Definition print_data : IO unit :=
  print [PyStr (py "Items Report")];;
  names ← call (reads (fun w => sorted (Dict.keys (stock_data w))));
  for_each names print_item.

Section demo.
Context `{JsonCodec}.

(** [_demo_flow()].  The world's store is the one manager the function
    makes; [save_data()] and [load_data()] take their default path. *)
Definition _demo_flow : IO unit :=
  logs ← call new_list;
  call (modify init);;
  call (add_item (PyStr (py "apple")) (PyInt 10) (Some logs));;
  io_try (call (add_item (PyStr (py "banana")) (PyInt (-2)) (Some logs)))
    (fun exc =>
       if isinstance exc ValueError then
         Some (call (logging INFO "Rejected negative quantity for banana" []))
       else None);;
  io_try (call (remove_item (PyStr (py "apple")) (PyInt 3));;
          call (remove_item (PyStr (py "orange")) (PyInt 1)))
    (fun exc =>
       if isinstance exc KeyError then
         Some (call (logging INFO "Tried to remove non-existent item: %s" [ArgExn exc]))
       else None);;
  stock ← call (get_qty (PyStr (py "apple")));
  print [PyStr (py "Apple stock:"); of_int stock];;
  low ← call (check_low_items (PyInt 5));
  print [PyStr (py "Low items:"); PyList (map PyStr low)];;
  call (save_data (py "inventory.json"));;
  call (load_data (py "inventory.json"));;
  print_data;;
  lines ← call (reads (fun w => default [] (heap w !! logs)));
  match lines with
  | [] => mret tt
  | _ =>
      print [PyStr (10%N :: py "Audit trail:")];;
      for_each lines (fun line => print [PyStr line])
  end.
End demo.

(** What [load_data] returns and leaves in the store, from what is at the
    path and what the store held. *)
Definition loaded `{JsonCodec} (node : option fnode) (stock : list (str * pyint))
    : result unit * list (str * pyint) :=
  match node with
  | None => (Ok tt, [])
  | Some Directory | Some NoAccess => (Ok tt, stock)
  | Some (File text) =>
      match json_load text with
      | Ok (PyDict items) =>
          (Ok tt, fold_left (fun acc kv =>
                               match valid_record kv.1 kv.2 with
                               | Some (k, v) => Dict.set k v acc
                               | None => acc
                               end) items [])
      | Ok _ => (Ok tt, stock)
      | Raise e =>
          if isinstance e FileNotFoundError then (Ok tt, [])
          else if isinstance e OSError || isinstance e ValueError then (Ok tt, stock)
          else (Raise e, stock)
      end
  end.

(** The warning [load_data] logs for a record it drops. *)
Definition dropped (items : list (pyvalue * pyvalue)) : list log_record :=
  map (fun kv => LogRecord WARNING "Ignoring invalid record: %r -> %r"
                   [ArgValue kv.1; ArgValue kv.2])
      (filter (fun kv => valid_record kv.1 kv.2 = None) items).

(** A reader that has reached the interpreter's recursion limit. *)
Definition exhausted_codec : JsonCodec := {|
  json_load _ := Raise (Exn RecursionError (py "maximum recursion depth exceeded"));
  json_dump d := Ok (Json.dumps d)
|}.

(** ** Vocabulary of the properties *)

(** The quantity [get_qty] reads for [k]. *)
Definition quantity (k : str) (d : list (str * pyint)) : pyint :=
  default (PInt 0) (Dict.get k d).

(** The arguments of the [print] call [print_data] makes for [name]. *)
Definition report_line (d : list (str * pyint)) (name : str) : list pyvalue :=
  [PyStr (name ++ py " -> " ++ str_of_int (quantity name d))].

(** [k] is stored with quantity zero. *)
Definition zero_entry (k : str) (d : list (str * pyint)) : Prop :=
  exists v, Dict.get k d = Some v /\ int_val v = 0.

(** A sequence of calls [add_item(item, qty, logs)]. *)
Definition add_items (calls : list (str * pyint * option loc)) : M unit :=
  foldr (fun c rest => add_item (PyStr c.1.1) (of_int c.1.2) c.2 ;; rest)
        (mret tt) calls.

(** The sum of the quantities the calls add for [item]. *)
Definition total_added (item : str) (calls : list (str * pyint * option loc)) : Z :=
  foldr (fun c acc => if decide (c.1.1 = item) then int_val c.1.2 + acc else acc)
        0 calls.

(** The ranges of the fields of a [datetime]. *)
Definition valid_datetime (t : datetime) : Prop :=
  (1 <= year t <= 9999 /\ 1 <= month t <= 12 /\ 1 <= day t <= 31
   /\ hour t < 24 /\ minute t < 60 /\ second t < 60)%N.

(** [n] decimal digits. *)
Definition digits (n : nat) (s : str) : Prop :=
  length s = n /\ forallb Json.is_digit s = true.

(** [YYYY-MM-DDTHH:MM:SS]: ISO 8601 to the second. *)
Definition iso_seconds (t : str) : Prop :=
  exists Y M D h m s,
    t = Y ++ py "-" ++ M ++ py "-" ++ D ++ py "T" ++ h ++ py ":" ++ m ++ py ":" ++ s
    /\ digits 4 Y /\ digits 2 M /\ digits 2 D
    /\ digits 2 h /\ digits 2 m /\ digits 2 s.

(** [pad width n] is [width] decimal digits. *)
Definition pad_checked (width : nat) (n : nat) : bool :=
  let p := pad width (N.of_nat n) in
  bool_decide (length p = width) && forallb Json.is_digit p.

(** What the loading loop leaves in [cleaned]. *)
Definition keep (items : list (pyvalue * pyvalue)) (cleaned : list (str * pyint))
    : list (str * pyint) :=
  fold_left (fun acc kv =>
               match valid_record kv.1 kv.2 with
               | Some (k, v) => Dict.set k v acc
               | None => acc
               end) items cleaned.

(** What ends a number in the writer's output: a comma or a line feed. *)
Definition ends_number (t : N) : Prop := t = 44%N \/ t = 10%N.

(** The invariant of the store: a dictionary of quantities that are not
    negative. *)
Definition store_ok (d : list (str * pyint)) : Prop :=
  Dict.wf d /\ Forall (fun kv => 0 <= int_val kv.2) d.

(** One call of a method, whatever it returns, with any codec. *)
Inductive step (w w' : world) : Prop :=
| step_add_item item qty logs r :
    add_item item qty logs w = (r, w') -> step w w'
| step_remove_item item qty r :
    remove_item item qty w = (r, w') -> step w w'
| step_get_qty item r :
    get_qty item w = (r, w') -> step w w'
| step_check_low_items threshold r :
    check_low_items threshold w = (r, w') -> step w w'
| step_load_data (codec : JsonCodec) file_path r :
    load_data file_path w = (r, w') -> step w w'
| step_save_data (codec : JsonCodec) file_path r :
    save_data file_path w = (r, w') -> step w w'.

(** The states a new [InventoryManager] reaches through its methods. *)
Inductive reachable : world -> Prop :=
| reachable_init w : reachable (init w)
| reachable_step w w' : reachable w -> step w w' -> reachable w'.

(** JSON text written with ['] for the double quote. *)
Definition json_text (s : string) : str :=
  map (fun c => if (c =? 39)%N then 34%N else c) (py s).

(** Sample data for the examples. *)
Definition noon : datetime := Datetime 2024 3 9 12 0 0 0.
Definition fresh_world : world := init (World [] ∅ ∅ noon []).
Definition apple : str := py "apple".
Definition banana : str := py "banana".
Definition orange : str := py "orange".
Definition inventory_json : str := py "inventory.json".

(** * Properties *)

(** ** Dictionaries *)
Module DictFacts.
Import Dict.
Section facts.
Context {V : Type}.
Implicit Types (d : list (str * V)) (k : str) (v : V).

Lemma get_set_eq d k v : get k (set k v d) = Some v.
Proof.
  induction d as [|[k' v'] d IH]; simpl.
  - by rewrite decide_True.
  - destruct (decide (k' = k)) as [->|Hne]; simpl.
    + by rewrite decide_True.
    + by rewrite decide_False.
Qed.

Lemma get_set_ne d k k' v : k <> k' -> get k' (set k v d) = get k' d.
Proof.
  intros Hne. induction d as [|[k0 v0] d IH]; simpl.
  - by rewrite decide_False.
  - destruct (decide (k0 = k)) as [->|Hne0]; simpl.
    + by rewrite !decide_False.
    + destruct (decide (k0 = k')); [done | apply IH].
Qed.

Lemma get_del_eq d k : get k (del k d) = None.
Proof.
  induction d as [|[k0 v0] d IH]; simpl; [done|].
  destruct (decide (k0 = k)) as [->|Hne0]; simpl; [done|].
  by rewrite decide_False.
Qed.

Lemma get_del_ne d k k' : k <> k' -> get k' (del k d) = get k' d.
Proof.
  intros Hne. induction d as [|[k0 v0] d IH]; simpl; [done|].
  destruct (decide (k0 = k)) as [->|Hne0]; simpl.
  - by rewrite decide_False.
  - destruct (decide (k0 = k')); [done | apply IH].
Qed.

Lemma get_None d k : get k d = None <-> k ∉ keys d.
Proof.
  unfold keys. induction d as [|[k0 v0] d IH]; simpl.
  - split; [intros _; apply not_elem_of_nil | done].
  - rewrite not_elem_of_cons. destruct (decide (k0 = k)) as [->|Hne0].
    + split; [done | by intros [? _]].
    + rewrite IH. split; [by intros ?; split | by intros [_ ?]].
Qed.

Lemma get_Some_elem d k v : get k d = Some v -> (k, v) ∈ d.
Proof.
  induction d as [|[k0 v0] d IH]; simpl; [done|].
  destruct (decide (k0 = k)) as [->|Hne0].
  - intros [= ->]. apply list_elem_of_here.
  - intros Hg. apply list_elem_of_further, IH, Hg.
Qed.

Lemma elem_get d k v : wf d -> (k, v) ∈ d -> get k d = Some v.
Proof.
  unfold wf, keys. induction d as [|[k0 v0] d IH]; simpl.
  - intros _ Hin. by apply elem_of_nil in Hin.
  - rewrite NoDup_cons. intros [Hk0 Hnd] Hin.
    apply elem_of_cons in Hin as [[= -> ->]|Hin].
    + by rewrite decide_True.
    + rewrite decide_False; [by apply IH|].
      intros ->. apply Hk0. apply list_elem_of_fmap. by exists (k, v).
Qed.

Lemma set_fresh d k v : get k d = None -> set k v d = d ++ [(k, v)].
Proof.
  induction d as [|[k0 v0] d IH]; simpl; [done|].
  destruct (decide (k0 = k)); [done|]. intros Hg. by rewrite IH.
Qed.

Lemma keys_set_present d k v :
  is_Some (get k d) -> keys (set k v d) = keys d.
Proof.
  unfold keys. induction d as [|[k0 v0] d IH]; simpl.
  - by intros [? ?].
  - destruct (decide (k0 = k)) as [->|Hne0]; simpl; [done|].
    intros Hs. f_equal. by apply IH.
Qed.

Lemma wf_set d k v : wf d -> wf (set k v d).
Proof.
  intros Hwf. destruct (get k d) as [v0|] eqn:Hg.
  - unfold wf. by rewrite keys_set_present.
  - rewrite set_fresh by done. unfold wf, keys in *.
    rewrite fmap_app. simpl. apply NoDup_app. split; [done|].
    split; [|apply NoDup_singleton].
    intros x Hx Hx'. apply list_elem_of_singleton in Hx' as ->.
    by apply get_None in Hg.
Qed.

Lemma keys_del d k : keys (del k d) = filter (fun k' => k' <> k) (keys d).
Proof.
  unfold keys. induction d as [|[k0 v0] d IH]; csimpl; [done|].
  destruct (decide (k0 = k)) as [->|Hne0]; csimpl.
  - rewrite filter_cons_False; [done | by intros ?].
  - rewrite filter_cons_True by done. by rewrite IH.
Qed.

Lemma wf_del d k : wf d -> wf (del k d).
Proof. unfold wf. rewrite keys_del. apply NoDup_filter. Qed.
End facts.
End DictFacts.

(** ** Trimming *)

Lemma lstrip_head s :
  lstrip s = [] \/ exists c rest, lstrip s = c :: rest /\ isspace c = false.
Proof.
  induction s as [|c s IH]; simpl; [by left|].
  destruct (isspace c) eqn:Hc; [done|]. right. by exists c, s.
Qed.

Lemma lstrip_snoc s c : isspace c = false -> lstrip (s ++ [c]) = lstrip s ++ [c].
Proof.
  intros Hc. induction s as [|a s IH]; simpl.
  - by rewrite Hc.
  - by destruct (isspace a).
Qed.

Lemma rstrip_cons c s : isspace c = false -> rstrip (c :: s) = c :: rstrip s.
Proof.
  intros Hc. unfold rstrip. simpl.
  by rewrite lstrip_snoc, rev_app_distr.
Qed.

Lemma lstrip_idemp s : lstrip (lstrip s) = lstrip s.
Proof.
  induction s as [|c s IH]; simpl; [done|].
  destruct (isspace c) eqn:Hc; [done|]. simpl. by rewrite Hc.
Qed.

Lemma rstrip_idemp s : rstrip (rstrip s) = rstrip s.
Proof. unfold rstrip. by rewrite rev_involutive, lstrip_idemp. Qed.

(** Trimming a trimmed string changes nothing. *)
Lemma strip_idemp s : strip (strip s) = strip s.
Proof.
  unfold strip. destruct (lstrip_head s) as [->|(c & rest & -> & Hc)]; [done|].
  rewrite (rstrip_cons c rest Hc). simpl. rewrite Hc.
  by rewrite (rstrip_cons c _ Hc), rstrip_idemp.
Qed.

(** ** Running the methods *)

Ltac run :=
  cbv beta iota zeta delta
      [mbind M_bind mret M_ret reads modify raise logging lift stock_getitem
       new_list list_append set_stock_data set_heap set_files set_logged];
  cbn [stock_data heap files now logged].

Lemma require_item_ok s w : strip s <> [] -> require_item (PyStr s) w = (Ok s, w).
Proof.
  intros Hs. unfold require_item. simpl. by rewrite bool_decide_eq_false_2.
Qed.

Lemma require_item_fail item w :
  (forall s, item = PyStr s -> strip s = []) ->
  exists e, require_item item w = (Raise e, w) /\ exn_type e = ValueError.
Proof.
  intros Hbad. unfold require_item.
  destruct item as [| | | |s| |]; simpl; try by eexists.
  rewrite bool_decide_eq_true_2 by by apply Hbad. by eexists.
Qed.

(** The guard lets a non-blank string through and stops anything else. *)
Lemma require_item_cases item w :
  (exists s, item = PyStr s /\ strip s <> [] /\ require_item item w = (Ok s, w))
  \/ ((forall s, item = PyStr s -> strip s = [])
      /\ exists e, require_item item w = (Raise e, w) /\ exn_type e = ValueError).
Proof.
  destruct item as [| | | |s| |];
    try (right; split; [intros ? [=] | by eexists]).
  destruct (decide (strip s = [])) as [Hs|Hs].
  - right. split; [by intros ? [= <-] | by apply require_item_fail; intros ? [= <-]].
  - left. exists s. by rewrite require_item_ok.
Qed.

Lemma add_item_ok w s qty q logs :
  strip s <> [] -> as_int qty = Some q -> 0 <= int_val q ->
  exists w', add_item (PyStr s) qty logs w = (Ok tt, w')
    /\ stock_data w' =
         Dict.set s (PInt (int_val (quantity s (stock_data w)) + int_val q)) (stock_data w)
    /\ files w' = files w /\ now w' = now w.
Proof.
  intros Hs Hq Hnn. unfold add_item. run.
  rewrite (require_item_ok s w Hs), Hq.
  destruct (int_val q <? 0) eqn:Hlt; [apply Z.ltb_lt in Hlt; lia|].
  destruct logs; run; rewrite DictFacts.get_set_eq;
    eexists; (split; [reflexivity|]); done.
Qed.

Lemma remove_item_ok w s qty q cur :
  strip s <> [] -> as_int qty = Some q -> 0 < int_val q ->
  Dict.get s (stock_data w) = Some cur ->
  exists w', remove_item (PyStr s) qty w = (Ok tt, w')
    /\ stock_data w' =
         (if 0 <? int_val cur - int_val q
          then Dict.set s (PInt (int_val cur - int_val q)) (stock_data w)
          else Dict.del s (stock_data w))
    /\ heap w' = heap w /\ files w' = files w /\ now w' = now w.
Proof.
  intros Hs Hq Hpos Hcur. unfold remove_item. run.
  rewrite (require_item_ok s w Hs), Hq.
  destruct (int_val q <=? 0) eqn:Hle; [apply Z.leb_le in Hle; lia|].
  run. unfold Dict.mem. rewrite Hcur. cbn [negb]. run.
  rewrite !Hcur.
  destruct (0 <? int_val cur - int_val q); run; eexists; (split; [reflexivity|]); done.
Qed.

Lemma get_qty_ok w s :
  strip s <> [] -> get_qty (PyStr s) w = (Ok (quantity s (stock_data w)), w).
Proof. intros Hs. unfold get_qty. run. by rewrite (require_item_ok s w Hs). Qed.

(** ** C6: removing an absent item *)

(** C6.  For every store state and every item name absent from the mapping,
    [remove_item(item, qty)] with a positive integer [qty] raises [KeyError]
    (the spec's NotFound); the key is not created and the world, store
    included, is exactly as before the call. *)
Theorem remove_item_absent (w : world) (s : str) (qty : pyvalue) (q : pyint) :
  strip s <> [] -> as_int qty = Some q -> 0 < int_val q ->
  Dict.get s (stock_data w) = None ->
  exists e, remove_item (PyStr s) qty w = (Raise e, w)
    /\ exn_type e = KeyError
    /\ s ∉ Dict.keys (stock_data w).
Proof.
  intros Hs Hq Hpos Habs. unfold remove_item. run.
  rewrite (require_item_ok s w Hs), Hq.
  destruct (int_val q <=? 0) eqn:Hle; [apply Z.leb_le in Hle; lia|].
  run. unfold Dict.mem. rewrite Habs. cbn [negb].
  eexists. split; [reflexivity|]. split; [done|].
  by apply DictFacts.get_None.
Qed.

(** ** C7: invalid arguments of [add_item] *)

(** C7.  For every store state, [add_item] with an item that is not a string
    or is empty after trimming, or with a [qty] that is not an [int] or is
    negative, raises [ValueError] (the spec's InvalidArgument) before any
    mutation: the world after the call is the world before it.  As in
    Python, [True] and [False] are instances of [int]. *)
Theorem add_item_invalid (w : world) (item qty : pyvalue) (logs : option loc) :
  (forall s, item = PyStr s -> strip s = [])
  \/ as_int qty = None
  \/ (exists q, as_int qty = Some q /\ int_val q < 0) ->
  exists e, add_item item qty logs w = (Raise e, w) /\ exn_type e = ValueError.
Proof.
  intros Hbad. unfold add_item. run.
  destruct (require_item_cases item w)
    as [(s & -> & Hs & ->)|(Hempty & e & -> & He)]; [|by exists e].
  destruct Hbad as [Hbad|[Hbad|(q & Hq & Hneg)]].
  - exfalso. apply Hs. by apply Hbad.
  - rewrite Hbad. by eexists.
  - rewrite Hq. apply Z.ltb_lt in Hneg. rewrite Hneg. by eexists.
Qed.

Lemma remove_item_absent_witness :
  let w := set_stock_data [(apple, PInt 7)] fresh_world in
  exists e, remove_item (PyStr orange) (PyInt 1) w = (Raise e, w)
    /\ exn_type e = KeyError
    /\ orange ∉ Dict.keys (stock_data w).
Proof.
  apply (remove_item_absent _ orange (PyInt 1) (PInt 1)).
  - by vm_compute.
  - reflexivity.
  - reflexivity.
  - reflexivity.
Defined.

(** The scenario of the spec: [add_item("banana", -2)] fails on an empty
    store, which stays empty. *)
Lemma add_item_invalid_witness :
  (exists q, as_int (PyInt (-2)) = Some q /\ int_val q < 0)
  /\ exists e, add_item (PyStr banana) (PyInt (-2)) None fresh_world = (Raise e, fresh_world)
       /\ exn_type e = ValueError.
Proof.
  assert (exists q, as_int (PyInt (-2)) = Some q /\ int_val q < 0) as Hneg.
  { exists (PInt (-2)). split; reflexivity. }
  split; [exact Hneg|].
  apply (add_item_invalid fresh_world (PyStr banana) (PyInt (-2)) None).
  right. right. exact Hneg.
Defined.

(** [bool] is a subclass of [int]: [add_item("apple", True)] passes the
    guard and adds one. *)
Example add_item_True :
  exists w', add_item (PyStr apple) (PyBool true) None fresh_world = (Ok tt, w')
    /\ stock_data w' = [(apple, PInt 1)].
Proof. eexists. split; reflexivity. Qed.

(** ** C1: zero-quantity entries *)



(** ** C10: names are stored as given *)




(** ** C4: adding, then reading *)

Lemma as_int_of_int q : as_int (of_int q) = Some q.
Proof. by destruct q. Qed.

Lemma add_items_quantity calls item w :
  Forall (fun c => strip c.1.1 <> [] /\ 0 <= int_val c.1.2) calls ->
  exists w', add_items calls w = (Ok tt, w')
    /\ int_val (quantity item (stock_data w'))
         = int_val (quantity item (stock_data w)) + total_added item calls.
Proof.
  intros Hvalid. revert w.
  induction Hvalid as [|[[s q] logs] calls [Hs Hq] _ IH]; intros w.
  - exists w. split; [done|]. simpl. lia.
  - simpl in Hs, Hq.
    destruct (add_item_ok w s (of_int q) q logs Hs (as_int_of_int q) Hq)
      as (w1 & Hrun & Hst & _).
    destruct (IH w1) as (w' & Hrest & Hsum).
    exists w'. split.
    + cbn [add_items foldr]. cbv beta iota zeta delta [mbind M_bind].
      cbn [fst snd]. rewrite Hrun. exact Hrest.
    + rewrite Hsum, Hst. cbn [total_added foldr fst snd]. unfold quantity at 1.
      destruct (decide (s = item)) as [->|Hne].
      * rewrite DictFacts.get_set_eq. simpl. fold (total_added item calls). lia.
      * rewrite DictFacts.get_set_ne by done. fold (total_added item calls).
        fold (quantity item (stock_data w)). lia.
Qed.



(** ** C8: low stock *)

(** C8.  For every store state (a dictionary: each key once) and every
    [threshold] that is a non-negative [int], [check_low_items] returns
    each item name whose stored quantity is strictly below the threshold,
    once, and no other name; for a threshold that is not an [int] or is
    negative it raises [ValueError].  In both cases the world is unchanged. *)
Theorem check_low_items_spec (w : world) (threshold : pyvalue) :
  Dict.wf (stock_data w) ->
  (forall t, as_int threshold = Some t -> 0 <= int_val t ->
     exists names, check_low_items threshold w = (Ok names, w)
       /\ NoDup names
       /\ forall n, n ∈ names <->
            exists q, Dict.get n (stock_data w) = Some q /\ int_val q < int_val t)
  /\ (as_int threshold = None \/ (exists t, as_int threshold = Some t /\ int_val t < 0) ->
     exists e, check_low_items threshold w = (Raise e, w) /\ exn_type e = ValueError).
Proof.
  intros Hwf. split.
  - intros t Ht Hnn. unfold check_low_items. run. rewrite Ht.
    destruct (int_val t <? 0) eqn:Hlt; [apply Z.ltb_lt in Hlt; lia|]. run.
    eexists. split; [reflexivity|]. split.
    + unfold Dict.wf, Dict.keys in Hwf.
      induction (stock_data w) as [|[k v] d IH]; [constructor|].
      csimpl in Hwf. apply NoDup_cons in Hwf as [Hk Hd].
      destruct (decide (int_val v < int_val t)) as [Hlow|Hhigh].
      * rewrite filter_cons_True by done. csimpl. apply NoDup_cons. split; [|by apply IH].
        intros Hin. apply Hk. apply list_elem_of_fmap in Hin as ([k' v'] & -> & Hin).
        apply list_elem_of_filter in Hin as [_ Hin].
        apply list_elem_of_fmap. by exists (k', v').
      * rewrite filter_cons_False by done. by apply IH.
    + intros n. rewrite list_elem_of_fmap. split.
      * intros ([k v] & -> & Hin). apply list_elem_of_filter in Hin as [Hlow Hin].
        exists v. split; [by apply DictFacts.elem_get | done].
      * intros (v & Hget & Hlow). exists (n, v). split; [done|].
        apply list_elem_of_filter. split; [done | by apply DictFacts.get_Some_elem].
  - intros Hbad. unfold check_low_items. run.
    destruct Hbad as [->|(t & -> & Hneg)]; [by eexists|].
    apply Z.ltb_lt in Hneg. rewrite Hneg. by eexists.
Qed.

Lemma check_low_items_spec_witness :
  let w := set_stock_data [(apple, PInt 7); (banana, PInt 2); (orange, PInt 0)] fresh_world in
  (check_low_items (PyInt 5) w = (Ok [banana; orange], w))
  /\ (exists names, check_low_items (PyInt 5) w = (Ok names, w)
       /\ NoDup names
       /\ forall n, n ∈ names <->
            exists q, Dict.get n (stock_data w) = Some q /\ int_val q < 5)
  /\ (exists e, check_low_items (PyInt (-1)) w = (Raise e, w) /\ exn_type e = ValueError).
Proof.
  intros w.
  assert (Dict.wf (stock_data w)) as Hwf.
  { unfold Dict.wf. apply (bool_decide_unpack _). by vm_compute. }
  split; [reflexivity|]. split.
  - apply (proj1 (check_low_items_spec w (PyInt 5) Hwf) (PInt 5));
      [reflexivity | by vm_compute].
  - apply (proj2 (check_low_items_spec w (PyInt (-1)) Hwf)).
    right. exists (PInt (-1)). split; reflexivity.
Defined.

(** ** C9: the audit line *)

Lemma pad_digits width bound n :
  forallb (pad_checked width) (seq 0 bound) = true ->
  (n < N.of_nat bound)%N -> digits width (pad width n).
Proof.
  intros Hall Hn. rewrite forallb_forall in Hall.
  specialize (Hall (N.to_nat n)). unfold pad_checked in Hall.
  rewrite N2Nat.id in Hall. apply andb_prop in Hall as [Hlen Hdig].
  - split; [by apply bool_decide_eq_true in Hlen | done].
  - apply in_seq. lia.
Qed.

Lemma pad4_digits n : (n < 10000)%N -> digits 4 (pad 4 n).
Proof. apply (pad_digits 4 10000). by vm_compute. Qed.

Lemma pad2_digits n : (n < 100)%N -> digits 2 (pad 2 n).
Proof. apply (pad_digits 2 100). by vm_compute. Qed.

Lemma isoformat_seconds_shape t : valid_datetime t -> iso_seconds (isoformat_seconds t).
Proof.
  intros (Hy & Hm & Hd & Hh & Hmin & Hs).
  exists (pad 4 (year t)), (pad 2 (month t)), (pad 2 (day t)),
         (pad 2 (hour t)), (pad 2 (minute t)), (pad 2 (second t)).
  split; [reflexivity|].
  repeat split; (apply pad4_digits || apply pad2_digits); lia.
Qed.




(** ** Loading *)

Lemma load_records_run items cleaned w :
  exists w', load_records items cleaned w = (Ok (keep items cleaned), w')
    /\ stock_data w' = stock_data w /\ heap w' = heap w
    /\ files w' = files w /\ now w' = now w.
Proof.
  revert cleaned w. induction items as [|[key value] items IH]; intros cleaned w.
  - by exists w.
  - cbn [load_records keep fold_left fst snd].
    destruct (valid_record key value) as [[k v]|].
    + apply IH.
    + run. edestruct IH as (w' & -> & Hst & Hheap & Hfiles & Hnow).
      exists w'. split; [reflexivity|]. by rewrite Hst, Hheap, Hfiles, Hnow.
Qed.

Lemma valid_record_Some key value k v :
  valid_record key value = Some (k, v)
  <-> key = PyStr k /\ value = of_int v /\ 0 <= int_val v.
Proof.
  unfold valid_record. split.
  - destruct key; try discriminate. destruct value; try discriminate; simpl;
      (destruct (0 <=? _) eqn:Hnn; [|discriminate]); apply Z.leb_le in Hnn;
      intros [= <- <-]; done.
  - intros (-> & -> & Hnn). simpl. rewrite as_int_of_int.
    apply Z.leb_le in Hnn. by rewrite Hnn.
Qed.

Lemma of_int_inj v v' : of_int v = of_int v' -> v = v'.
Proof. destruct v, v'; simpl; congruence. Qed.

(** The entries of [keep items cleaned]: the valid records of [items], and
    the entries of [cleaned] whose name has no valid record in [items]. *)
Lemma keep_get items cleaned k v :
  NoDup items.*1 ->
  Dict.get k (keep items cleaned) = Some v
  <-> ((PyStr k, of_int v) ∈ items /\ 0 <= int_val v)
      \/ ((forall value, (PyStr k, value) ∈ items -> valid_record (PyStr k) value = None)
          /\ Dict.get k cleaned = Some v).
Proof.
  revert cleaned. induction items as [|[key value] items IH]; intros cleaned Hnd.
  - simpl. split.
    + intros Hget. right. split; [|done]. intros ? Hin. by apply elem_of_nil in Hin.
    + intros [[Hin _]|[_ Hget]]; [by apply elem_of_nil in Hin | done].
  - csimpl in Hnd. apply NoDup_cons in Hnd as [Hkey Hnd].
    cbn [keep fold_left fst snd].
    match goal with |- Dict.get k (fold_left ?f items ?c) = _ <-> _ =>
      change (fold_left f items c) with (keep items c) end.
    rewrite (IH _ Hnd). clear IH.
    assert (forall value', (PyStr k, value') ∈ items -> key <> PyStr k) as Hother.
    { intros value' Hin ->. apply Hkey. apply list_elem_of_fmap. by exists (PyStr k, value'). }
    destruct (valid_record key value) as [[k0 v0]|] eqn:Hvalid.
    + apply valid_record_Some in Hvalid as (-> & -> & Hnn0).
      destruct (decide (k0 = k)) as [->|Hne].
      * rewrite DictFacts.get_set_eq. split.
        -- intros [[Hin Hnn]|[_ [= <-]]]; left.
           ++ split; [by apply list_elem_of_further | done].
           ++ split; [apply list_elem_of_here | done].
        -- intros [[Hin Hnn]|[Hnone _]].
           ++ apply elem_of_cons in Hin as [[= Heq]|Hin].
              ** apply of_int_inj in Heq as ->. right. split; [|done].
                 intros value' Hin. by destruct (Hother value' Hin).
              ** left. done.
           ++ specialize (Hnone (of_int v0) (list_elem_of_here _ _)).
              assert (valid_record (PyStr k) (of_int v0) = Some (k, v0)) as Hv
                by by apply valid_record_Some.
              congruence.
      * rewrite DictFacts.get_set_ne by done. split.
        -- intros [[Hin Hnn]|[Hnone Hget]].
           ++ left. split; [by apply list_elem_of_further | done].
           ++ right. split; [|done]. intros value' Hin.
              apply elem_of_cons in Hin as [[= -> _]|Hin]; [done | by apply Hnone].
        -- intros [[Hin Hnn]|[Hnone Hget]].
           ++ apply elem_of_cons in Hin as [[= -> _]|Hin]; [done|]. by left.
           ++ right. split; [|done]. intros value' Hin.
              apply Hnone. by apply list_elem_of_further.
    + split.
      * intros [[Hin Hnn]|[Hnone Hget]].
        -- left. split; [by apply list_elem_of_further | done].
        -- right. split; [|done]. intros value' Hin.
           apply elem_of_cons in Hin as [[= <- <-]|Hin]; [done | by apply Hnone].
      * intros [[Hin Hnn]|[Hnone Hget]].
        -- apply elem_of_cons in Hin as [[= <- <-]|Hin]; [|by left].
           assert (valid_record (PyStr k) (of_int v) = Some (k, v)) as Hv
             by by apply valid_record_Some.
           congruence.
        -- right. split; [|done]. intros value' Hin.
           apply Hnone. by apply list_elem_of_further.
Qed.

Lemma keep_wf items cleaned : Dict.wf cleaned -> Dict.wf (keep items cleaned).
Proof.
  revert cleaned. induction items as [|[key value] items IH]; intros cleaned Hwf; [done|].
  cbn [keep fold_left fst snd]. destruct (valid_record key value) as [[k v]|].
  - apply IH. by apply DictFacts.wf_set.
  - by apply IH.
Qed.

Section loading.
Context `{JsonCodec}.

Lemma load_try_ok w file_path text items :
  files w !! file_path = Some (File text) ->
  json_load text = Ok (PyDict items) ->
  exists w', load_try file_path w = (Ok tt, w')
    /\ stock_data w' = keep items []
    /\ heap w' = heap w /\ files w' = files w.
Proof.
  intros Hfile Hload. unfold load_try, open_read. run. rewrite Hfile, Hload.
  destruct (load_records_run items [] w) as (w1 & -> & Hst & Hheap & Hfiles & _).
  run. eexists. split; [reflexivity|]. done.
Qed.

Lemma load_data_ok w file_path text items :
  files w !! file_path = Some (File text) ->
  json_load text = Ok (PyDict items) ->
  exists w', load_data file_path w = (Ok tt, w')
    /\ stock_data w' = keep items []
    /\ heap w' = heap w /\ files w' = files w.
Proof.
  intros Hfile Hload.
  destruct (load_try_ok w file_path text items Hfile Hload) as (w' & Hrun & Hrest).
  exists w'. split; [|done]. unfold load_data, try_except. by rewrite Hrun.
Qed.

End loading.

(** ** C3: what a load keeps *)

(** C3.  For every file whose content parses as a JSON object (a [dict],
    each key once), [load_data] succeeds and puts in place of [stock_data],
    whatever it held, a dictionary with exactly the entries of the object
    whose key is a [str] and whose value is an [int] that is not negative
    (in Python [True] and [False] are such values); every other entry is
    dropped. *)
Theorem load_data_keeps_valid `{JsonCodec}
    (w : world) (file_path text : str) (items : list (pyvalue * pyvalue)) :
  files w !! file_path = Some (File text) ->
  json_load text = Ok (PyDict items) ->
  NoDup items.*1 ->
  exists w', load_data file_path w = (Ok tt, w')
    /\ Dict.wf (stock_data w')
    /\ forall k v, Dict.get k (stock_data w') = Some v
         <-> (PyStr k, of_int v) ∈ items /\ 0 <= int_val v.
Proof.
  intros Hfile Hload Hnd.
  destruct (load_data_ok w file_path text items Hfile Hload) as (w' & Hrun & Hst & _).
  exists w'. split; [done|]. rewrite Hst. split.
  - apply keep_wf. constructor.
  - intros k v. rewrite (keep_get items [] k v Hnd). split.
    + by intros [?|[_ ?]].
    + by left.
Qed.

(** The example of the spec: of [{"x": 3, "y": -1, "z": "bad"}] only
    ["x": 3] is kept, and what the store held is gone. *)
Lemma load_data_keeps_valid_witness :
  let text := json_text "{'x': 3, 'y': -1, 'z': 'bad'}" in
  let items := [(PyStr (py "x"), PyInt 3); (PyStr (py "y"), PyInt (-1));
                (PyStr (py "z"), PyStr (py "bad"))] in
  let w := World [(apple, PInt 7)] ∅ {[ inventory_json := File text ]} noon [] in
  json_load text = Ok (PyDict items)
  /\ exists w', load_data inventory_json w = (Ok tt, w')
       /\ stock_data w' = [(py "x", PInt 3)]
       /\ forall k v, Dict.get k (stock_data w') = Some v
            <-> (PyStr k, of_int v) ∈ items /\ 0 <= int_val v.
Proof.
  intros text items w.
  assert (json_load text = Ok (PyDict items)) as Hload by by vm_compute.
  split; [exact Hload|].
  destruct (load_data_keeps_valid w inventory_json text items) as (w' & Hrun & _ & Hkept).
  - by vm_compute.
  - exact Hload.
  - repeat (apply NoDup_cons; split);
      rewrite ?not_elem_of_cons; repeat split;
      try discriminate; try apply not_elem_of_nil; try apply NoDup_nil; exact I.
  - exists w'. split; [exact Hrun|]. split; [|exact Hkept].
    assert (load_data inventory_json w
            = (Ok tt, set_logged
                        [LogRecord WARNING "Ignoring invalid record: %r -> %r"
                           [ArgValue (PyStr (py "y")); ArgValue (PyInt (-1))];
                         LogRecord WARNING "Ignoring invalid record: %r -> %r"
                           [ArgValue (PyStr (py "z")); ArgValue (PyStr (py "bad"))];
                         LogRecord INFO "Loaded %d items from %s"
                           [ArgValue (PyInt 1); ArgValue (PyStr inventory_json)]]
                        (set_stock_data [(py "x", PInt 3)] w))) as Hcomputed
      by by vm_compute.
    rewrite Hcomputed in Hrun. by inversion Hrun.
Defined.

(** JSON [true] decodes to [True], an [int] that is not negative: the
    record is kept as it is. *)
Example load_data_true :
  let w := set_files {[ inventory_json := File (json_text "{'x': true, 'y': 2.0}") ]}
             fresh_world in
  exists w', load_data inventory_json w = (Ok tt, w')
    /\ stock_data w' = [(py "x", PBool true)].
Proof. eexists. split; by vm_compute. Qed.

(** ** C2: a load that fails *)

Lemma ValueError_not_FileNotFoundError e :
  isinstance e ValueError = true -> isinstance e FileNotFoundError = false.
Proof. destruct e as [c m]. by destruct c. Qed.

(** The second [except] clause: the error is logged, nothing else happens. *)
Lemma load_except_swallows `{JsonCodec} file_path e w :
  isinstance e ValueError = true
  \/ (isinstance e OSError = true /\ isinstance e FileNotFoundError = false) ->
  exists h, load_except file_path e = Some h
    /\ h w = (Ok tt, set_logged
                       (logged w ++ [LogRecord ERROR "Failed to load from %s: %s"
                                       [ArgValue (PyStr file_path); ArgExn e]]) w).
Proof.
  intros Hcaught. unfold load_except.
  assert (isinstance e FileNotFoundError = false) as ->.
  { destruct Hcaught as [Hv|[_ Hnf]]; [by apply ValueError_not_FileNotFoundError | done]. }
  assert (isinstance e JSONDecodeError || isinstance e OSError
          || isinstance e ValueError = true) as ->.
  { destruct Hcaught as [->|[-> _]]; by rewrite ?orb_true_r. }
  by eexists.
Qed.

(** C2.  For every prior store state: when the path is a directory or may
    not be opened (an [OSError] other than [FileNotFoundError]), when
    [json.load] raises a [ValueError] ([JSONDecodeError] is one) or such an
    [OSError], or when the decoded value is not a [dict], [load_data] returns
    normally, [stock_data] is what it was, and the only effect is one
    error-level logging call. *)
Theorem load_data_failure `{JsonCodec} (w : world) (file_path : str) :
  files w !! file_path = Some Directory
  \/ files w !! file_path = Some NoAccess
  \/ (exists text e,
        files w !! file_path = Some (File text) /\ json_load text = Raise e
        /\ (isinstance e ValueError = true
            \/ (isinstance e OSError = true /\ isinstance e FileNotFoundError = false)))
  \/ (exists text v,
        files w !! file_path = Some (File text) /\ json_load text = Ok v
        /\ forall items, v <> PyDict items) ->
  exists w' exc,
    load_data file_path w = (Ok tt, w')
    /\ stock_data w' = stock_data w
    /\ w' = set_logged (logged w ++ [LogRecord ERROR "Failed to load from %s: %s"
                                       [ArgValue (PyStr file_path); ArgExn exc]]) w.
Proof.
  intros Hfail.
  assert (exists e, load_try file_path w = (Raise e, w)
            /\ (isinstance e ValueError = true
                \/ (isinstance e OSError = true /\ isinstance e FileNotFoundError = false)))
    as (e & Htry & Hcaught).
  { unfold load_try, open_read. run.
    destruct Hfail as [->|[->|[(text & e & -> & -> & He)|(text & v & -> & -> & Hv)]]].
    - eexists. split; [reflexivity|]. right. by vm_compute.
    - eexists. split; [reflexivity|]. right. by vm_compute.
    - by exists e.
    - destruct v; try (eexists; split; [reflexivity|]; left; by vm_compute).
      by destruct (Hv items). }
  destruct (load_except_swallows file_path e w Hcaught) as (h & Hh & Hrun).
  eexists _, e. unfold load_data, try_except. rewrite Htry, Hh, Hrun.
  split; [reflexivity|]. by split.
Qed.

Lemma load_data_failure_witness :
  let text := json_text "{'x': 3, " in
  let w := World [(apple, PInt 7)] ∅ {[ inventory_json := File text ]} noon [] in
  (exists e, json_load text = Raise e /\ exn_type e = JSONDecodeError)
  /\ exists w' exc,
       load_data inventory_json w = (Ok tt, w')
       /\ stock_data w' = [(apple, PInt 7)]
       /\ w' = set_logged (logged w ++ [LogRecord ERROR "Failed to load from %s: %s"
                                          [ArgValue (PyStr inventory_json); ArgExn exc]]) w.
Proof.
  intros text w. split; [by eexists|].
  apply (load_data_failure w inventory_json).
  right. right. left. eexists text, _.
  split; [by vm_compute|]. split; [by vm_compute|]. left. by vm_compute.
Defined.

(** ** The codec reads back what it writes *)

Module JsonFacts.
Import Json.
Local Open Scope N_scope.

Lemma py_app a b : py (a +:+ b) = py a ++ py b.
Proof. induction a as [|c a IH]; [done|]. simpl. by rewrite IH. Qed.

Lemma hex_digit_char d : d < 16 -> hex_digit (hex_char d) = Some d.
Proof.
  intros Hd.
  assert (d = 0 \/ d = 1 \/ d = 2 \/ d = 3 \/ d = 4 \/ d = 5 \/ d = 6 \/ d = 7
          \/ d = 8 \/ d = 9 \/ d = 10 \/ d = 11 \/ d = 12 \/ d = 13 \/ d = 14 \/ d = 15)
    as Hcases by lia.
  repeat (destruct Hcases as [->|Hcases]; [reflexivity|]). by subst.
Qed.

(** Reading back one escaped character. *)
Lemma scanstring_escape_char c fuel tail :
  scanstring (S fuel) (escape c ++ tail)
  = '(text, rest) ← scanstring fuel tail; Ok (c :: text, rest).
Proof.
  unfold escape.
  destruct (N.eqb_spec c 34) as [->|H34]; [reflexivity|].
  destruct (N.eqb_spec c 92) as [->|H92]; [reflexivity|].
  destruct (N.eqb_spec c 8) as [->|H8]; [reflexivity|].
  destruct (N.eqb_spec c 12) as [->|H12]; [reflexivity|].
  destruct (N.eqb_spec c 10) as [->|H10]; [reflexivity|].
  destruct (N.eqb_spec c 13) as [->|H13]; [reflexivity|].
  destruct (N.eqb_spec c 9) as [->|H9]; [reflexivity|].
  destruct (N.ltb_spec c 32) as [Hlow|Hhigh].
  - cbn [app scanstring]. cbn [N.eqb Pos.eqb].
    unfold hex4. cbn [hex_digit is_digit N.leb N.compare Pos.compare Pos.compare_cont andb].
    rewrite !hex_digit_char
      by (try apply N.mod_lt; try (apply N.Div0.div_lt_upper_bound); lia).
    replace ((((48 - 48) * 16 + (48 - 48)) * 16 + c `div` 16) * 16 + c `mod` 16)
      with c by (pose proof (N.div_mod c 16); lia).
    unfold join_surrogates.
    destruct (N.leb_spec 55296 c) as [?|_]; [lia|]. reflexivity.
  - cbn [app scanstring].
    destruct (N.eqb_spec c 34) as [?|_]; [done|].
    destruct (N.eqb_spec c 92) as [?|_]; [done|].
    destruct (N.ltb_spec c 32) as [?|_]; [lia|]. reflexivity.
Qed.

Lemma escape_length c : (1 <= length (escape c))%nat.
Proof. unfold escape. repeat case_match; simpl; lia. Qed.

Lemma flat_map_escape_length k : (length k <= length (flat_map escape k))%nat.
Proof.
  induction k as [|c k IH]; simpl; [lia|].
  rewrite length_app. pose proof (escape_length c). lia.
Qed.

(** Reading back an encoded string. *)
Lemma scanstring_escape k fuel tail :
  (length k < fuel)%nat ->
  scanstring fuel (flat_map escape k ++ 34 :: tail) = Ok (k, tail).
Proof.
  revert fuel. induction k as [|c k IH]; intros [|fuel] Hfuel; simpl in Hfuel; try lia.
  - reflexivity.
  - cbn [flat_map]. rewrite <- app_assoc, scanstring_escape_char.
    rewrite IH by lia. reflexivity.
Qed.

Lemma digit_char d : d < 10 -> N_of_ascii (pretty_N_char d) = 48 + d.
Proof.
  intros Hd.
  assert (d = 0 \/ d = 1 \/ d = 2 \/ d = 3 \/ d = 4 \/ d = 5 \/ d = 6 \/ d = 7
          \/ d = 8 \/ d = 9) as Hcases by lia.
  repeat (destruct Hcases as [->|Hcases]; [reflexivity|]). by subst.
Qed.

Lemma int_of_digits_snoc ds c :
  int_of_digits (ds ++ [c]) = (int_of_digits ds * 10 + Z.of_N (c - 48))%Z.
Proof. unfold int_of_digits. by rewrite fold_left_app. Qed.

(** The digits [pretty_N_go] puts in front of [s]. *)
Lemma pretty_N_go_digits x : forall s,
  exists ds, py (pretty_N_go x s) = ds ++ py s
    /\ forallb is_digit ds = true
    /\ int_of_digits ds = Z.of_N x
    /\ (x = 0 -> ds = [])
    /\ (0 < x -> exists c ds', ds = c :: ds' /\ c <> 48).
Proof.
  induction (N.lt_wf_0 x) as [x _ IH]. intros s.
  destruct (N.eq_dec x 0) as [->|Hpos].
  - exists []. rewrite pretty_N_go_0. split; [done|]. split; [done|].
    split; [done|]. split; [done|lia].
  - rewrite pretty_N_go_step by lia.
    assert (x `div` 10 < x) as Hless by (apply N.div_lt; lia).
    assert (x `mod` 10 < 10) as Hmod by (by apply N.mod_lt).
    assert (x = 10 * x `div` 10 + x `mod` 10) as Hx by (by apply N.div_mod).
    destruct (IH (x `div` 10) Hless (String (pretty_N_char (x `mod` 10)) s))
      as (ds & Hds & Hdig & Hval & Hzero & Hhead).
    rewrite Hds. clear IH Hds. simpl. rewrite digit_char by done.
    revert Hless Hmod Hx Hval Hzero Hhead.
    generalize (x `div` 10) (x `mod` 10). intros q r Hless Hmod Hx Hval Hzero Hhead.
    exists (ds ++ [48 + r]). split; [|split; [|split; [|split]]].
    + by rewrite <- app_assoc.
    + rewrite forallb_app, Hdig. cbn [forallb andb]. rewrite andb_true_r.
      unfold is_digit. apply andb_true_intro. split; apply N.leb_le; lia.
    + rewrite int_of_digits_snoc, Hval. lia.
    + lia.
    + intros _. destruct (N.eq_dec q 0) as [Hsmall|Hbig].
      * rewrite (Hzero Hsmall). exists (48 + r), []. split; [done|]. lia.
      * destruct Hhead as (c & ds' & -> & Hc); [lia|]. by exists c, (ds' ++ [48 + r]).
Qed.

(** The decimal text of a natural number: digits, no leading zero. *)
Lemma pretty_N_digits x :
  exists c ds, py (pretty x) = c :: ds
    /\ forallb is_digit (c :: ds) = true
    /\ int_of_digits (c :: ds) = Z.of_N x
    /\ (c = 48 -> ds = []).
Proof.
  unfold pretty, pretty_N. case_decide as Hx.
  - subst. exists 48, []. by repeat split.
  - destruct (pretty_N_go_digits x "") as (ds & Hds & Hdig & Hval & _ & Hhead).
    destruct Hhead as (c & ds' & -> & Hc); [lia|].
    exists c, ds'. simpl in Hds. rewrite app_nil_r in Hds. by repeat split.
Qed.

Lemma span_digits_app ds tail t :
  forallb is_digit ds = true -> is_digit t = false ->
  span_digits (ds ++ t :: tail) = (ds, t :: tail).
Proof.
  intros Hds Ht. induction ds as [|c ds IH]; simpl in *.
  - by rewrite Ht.
  - apply andb_prop in Hds as [-> Hds]. by rewrite IH.
Qed.

Lemma scan_natural x t tail :
  ends_number t ->
  scan_int_part (py (pretty x) ++ t :: tail) = Some (py (pretty x), t :: tail)
  /\ int_of_digits (py (pretty x)) = Z.of_N x
  /\ exists c ds, py (pretty x) = c :: ds /\ is_digit c = true.
Proof.
  intros Ht. destruct (pretty_N_digits x) as (c & ds & Hpretty & Hdig & Hval & Hzero).
  rewrite Hpretty. simpl in Hdig. apply andb_prop in Hdig as [Hc Hds].
  assert (is_digit t = false) as Hend by (destruct Ht as [-> | ->]; reflexivity).
  split; [|split; [done|by exists c, ds]].
  cbn [app scan_int_part]. destruct (N.eqb_spec c 48) as [->|Hne].
  - by rewrite (Hzero eq_refl).
  - rewrite Hc. by rewrite span_digits_app.
Qed.

Lemma scan_number_pretty z t tail :
  ends_number t ->
  scan_number (py (pretty z) ++ t :: tail) = Some (PyInt z, t :: tail).
Proof.
  intros Ht.
  assert (scan_frac (t :: tail) = ([], t :: tail)) as Hfrac
    by (destruct Ht as [-> | ->]; reflexivity).
  assert (scan_exp (t :: tail) = ([], t :: tail)) as Hexp
    by (destruct Ht as [-> | ->]; reflexivity).
  assert (forall x : N, x <> 0 \/ z = 0%Z ->
            match py (pretty x) ++ t :: tail with
            | c :: r => if c =? 45 then ([45], r) else ([], py (pretty x) ++ t :: tail)
            | [] => ([], py (pretty x) ++ t :: tail)
            end = ([], py (pretty x) ++ t :: tail)) as Hnosign.
  { intros x _. destruct (scan_natural x t tail Ht) as (_ & _ & c & ds & Hp & Hc).
    rewrite Hp. cbn [app]. destruct (N.eqb_spec c 45) as [->|_]; [done|]. done. }
  unfold scan_number. destruct z as [|p|p].
  - change (pretty 0%Z) with (pretty 0%N).
    rewrite (Hnosign 0%N) by by right.
    destruct (scan_natural 0 t tail Ht) as (-> & Hval & _).
    rewrite Hfrac, Hexp. by rewrite Hval.
  - change (pretty (Z.pos p)) with (pretty (N.pos p)).
    rewrite (Hnosign (N.pos p)) by by left.
    destruct (scan_natural (N.pos p) t tail Ht) as (-> & Hval & _).
    rewrite Hfrac, Hexp. by rewrite Hval.
  - change (pretty (Z.neg p)) with ("-" +:+ pretty (N.pos p)).
    rewrite py_app. change (py "-") with [45]. cbn [app N.eqb Pos.eqb].
    destruct (scan_natural (N.pos p) t tail Ht) as (-> & Hval & _).
    rewrite Hfrac, Hexp. by rewrite Hval.
Qed.
(** The decimal text of an integer starts with a digit or a minus sign
    followed by a digit. *)
Lemma pretty_Z_head (z : Z) :
  exists c rest, py (pretty z) = c :: rest
    /\ (is_digit c = true
        \/ (c = 45 /\ exists d rest', rest = d :: rest' /\ is_digit d = true)).
Proof.
  destruct z as [|p|p].
  - exists 48, []. split; [done|by left].
  - change (pretty (Z.pos p)) with (pretty (N.pos p)).
    destruct (pretty_N_digits (N.pos p)) as (c & ds & -> & Hdig & _).
    exists c, ds. split; [done|]. left. simpl in Hdig. by apply andb_prop in Hdig as [? _].
  - change (pretty (Z.neg p)) with ("-" +:+ pretty (N.pos p)). rewrite py_app.
    destruct (pretty_N_digits (N.pos p)) as (c & ds & -> & Hdig & _).
    exists 45, (c :: ds). split; [done|]. right. split; [done|].
    exists c, ds. split; [done|]. simpl in Hdig. by apply andb_prop in Hdig as [? _].
Qed.

Lemma is_digit_range c : is_digit c = true -> 48 <= c <= 57.
Proof.
  unfold is_digit. intros Hc. apply andb_prop in Hc as [Hlo Hhi].
  apply N.leb_le in Hlo, Hhi. lia.
Qed.

(** Reading back a quantity the writer wrote. *)
Lemma scan_once_int fuel v t tail :
  ends_number t ->
  scan_once (S fuel) (encode_int v ++ t :: tail) = Ok (of_int v, t :: tail).
Proof.
  intros Ht. destruct v as [z|[|]]; [|reflexivity..].
  cbn [encode_int of_int scan_once].
  pose proof (scan_number_pretty z t tail Ht) as Hnumber.
  destruct (pretty_Z_head z) as (c & rest & Hhead & Hc).
  rewrite Hhead in *. cbn [app] in *.
  assert (48 <= c <= 57 \/ c = 45) as Hrange.
  { destruct Hc as [Hc|[-> _]]; [left; by apply is_digit_range | by right]. }
  destruct (N.eqb_spec c 34) as [?|_]; [lia|].
  destruct (N.eqb_spec c 123) as [?|_]; [lia|].
  destruct (N.eqb_spec c 91) as [?|_]; [lia|].
  assert (scan_constant (c :: rest ++ t :: tail) = None) as ->; [|by rewrite Hnumber].
  unfold scan_constant.
  change (py "null") with [110; 117; 108; 108].
  change (py "true") with [116; 114; 117; 101].
  change (py "false") with [102; 97; 108; 115; 101].
  change (py "NaN") with [78; 97; 78].
  change (py "Infinity") with [73; 110; 102; 105; 110; 105; 116; 121].
  change (py "-Infinity") with [45; 73; 110; 102; 105; 110; 105; 116; 121].
  cbn [strip_prefix].
  destruct (N.eqb_spec 110 c) as [?|_]; [lia|].
  destruct (N.eqb_spec 116 c) as [?|_]; [lia|].
  destruct (N.eqb_spec 102 c) as [?|_]; [lia|].
  destruct (N.eqb_spec 78 c) as [?|_]; [lia|].
  destruct (N.eqb_spec 73 c) as [?|_]; [lia|].
  destruct (N.eqb_spec 45 c) as [<-|_]; [|done].
  destruct Hc as [Hc|[_ (d & rest' & -> & Hd)]]; [done|].
  cbn [app strip_prefix]. apply is_digit_range in Hd.
  destruct (N.eqb_spec 73 d) as [?|_]; [lia|]. done.
Qed.

(** A name that is not among the pairs read so far goes last. *)
Lemma setitem_fresh key value (d : list (str * pyint)) :
  key ∉ Dict.keys d ->
  setitem key value (dict_items d) = dict_items d ++ [(PyStr key, value)].
Proof.
  unfold Dict.keys, dict_items. induction d as [|[k v] d IH]; csimpl; [done|].
  rewrite not_elem_of_cons. intros [Hne Hnotin].
  rewrite decide_False by congruence. by rewrite IH.
Qed.

Lemma encode_members_cons kv d :
  encode_members (kv :: d)
  = encode_member kv ++ match d with
                        | [] => []
                        | _ => [44] ++ newline_indent 1 ++ encode_members d
                        end.
Proof. destruct d; [by rewrite app_nil_r | done]. Qed.

(** Reading back the members the writer wrote. *)
Lemma skip_ws_members kv d tail :
  skip_ws (encode_members (kv :: d) ++ tail) = encode_members (kv :: d) ++ tail.
Proof.
  rewrite encode_members_cons. unfold encode_member, encode_string.
  by rewrite <- ?app_assoc.
Qed.

Lemma skip_ws_int v tail : skip_ws (encode_int v ++ tail) = encode_int v ++ tail.
Proof.
  destruct v as [z|[|]]; [|reflexivity..]. cbn [encode_int].
  destruct (pretty_Z_head z) as (c & rest & -> & Hc). cbn [app skip_ws].
  assert (48 <= c <= 57 \/ c = 45) as Hrange.
  { destruct Hc as [Hc|[-> _]]; [left; by apply is_digit_range | by right]. }
  unfold is_ws.
  destruct (N.eqb_spec c 32) as [?|_]; [lia|].
  destruct (N.eqb_spec c 9) as [?|_]; [lia|].
  destruct (N.eqb_spec c 10) as [?|_]; [lia|].
  destruct (N.eqb_spec c 13) as [?|_]; [lia|]. done.
Qed.

Lemma parse_members_encode d : forall fuel read tail,
  d <> [] -> (length d < fuel)%nat -> Dict.wf (read ++ d) ->
  parse_members fuel (encode_members d ++ 10 :: 125 :: tail) (dict_items read)
  = Ok (PyDict (dict_items (read ++ d)), tail).
Proof.
  induction d as [|[k v] d IH]; intros fuel read tail Hne Hfuel Hwf; [done|].
  destruct fuel as [|fuel]; [simpl in Hfuel; lia|].
  assert (exists fuel', fuel = S fuel') as [fuel' Hfuel'].
  { destruct fuel; [simpl in Hfuel; lia | by eexists]. }
  assert (k ∉ Dict.keys read) as Hfresh.
  { unfold Dict.wf, Dict.keys in *. rewrite fmap_app in Hwf.
    apply NoDup_app in Hwf as (_ & Hdisj & _).
    intros Hin. apply (Hdisj k Hin). csimpl. apply list_elem_of_here. }
  rewrite encode_members_cons. unfold encode_member, encode_string.
  change (py ": ") with [58; 32]. cbn [fst snd].
  rewrite <- ?app_assoc. cbn [app parse_members].
  rewrite scanstring_escape.
  2:{ rewrite length_app. pose proof (flat_map_escape_length k). simpl. lia. }
  cbn [mbind result_bind skip_ws is_ws N.eqb Pos.eqb orb].
  rewrite skip_ws_int. rewrite Hfuel' at 1.
  assert (setitem k (of_int v) (dict_items read) = dict_items (read ++ [(k, v)]))
    as Hset.
  { rewrite setitem_fresh by done. unfold dict_items. by rewrite map_app. }
  destruct d as [|kv d].
  - cbn [app]. rewrite scan_once_int by by right.
    cbn [mbind result_bind skip_ws is_ws N.eqb Pos.eqb orb]. by rewrite Hset.
  - change (newline_indent 1) with [10; 32; 32].
    rewrite <- ?app_assoc. cbn [app]. rewrite scan_once_int by by left.
    cbn [mbind result_bind skip_ws is_ws N.eqb Pos.eqb orb].
    rewrite skip_ws_members, Hset.
    rewrite IH; [by rewrite <- app_assoc | done | simpl in *; lia | by rewrite <- app_assoc].
Qed.

Lemma dumps_length d : (length d < length (dumps d))%nat.
Proof.
  destruct d as [|kv d]; [simpl; lia|]. unfold dumps.
  assert (forall d', (length d' <= length (encode_members d'))%nat) as Hmembers.
  { induction d' as [|kv' d' IH]; [simpl; lia|].
    rewrite encode_members_cons. unfold encode_member, encode_string.
    destruct d'; rewrite ?length_app; simpl in *; rewrite ?length_app; simpl; lia. }
  specialize (Hmembers (kv :: d)). rewrite !length_app. simpl in *. lia.
Qed.

(** The reader gives back the dictionary the writer wrote. *)
Lemma loads_dumps d : Dict.wf d -> loads (dumps d) = Ok (dict_value d).
Proof.
  intros Hwf. destruct d as [|kv d]; [reflexivity|].
  pose proof (dumps_length (kv :: d)) as Hlen.
  unfold loads, dumps in *. cbn [app newline_indent replicate Nat.mul Nat.add] in *.
  cbn [skip_ws is_ws N.eqb Pos.eqb orb scan_once].
  rewrite skip_ws_members.
  assert (exists body, encode_members (kv :: d) ++ 10 :: [125] = 34 :: body) as (body & Hbody).
  { rewrite encode_members_cons. unfold encode_member, encode_string.
    rewrite <- ?app_assoc. by eexists. }
  rewrite Hbody, <- Hbody.
  rewrite (parse_members_encode (kv :: d) _ [] []); [done | done | | done].
  simpl in Hlen. simpl. lia.
Qed.
End JsonFacts.

(** ** C5: saving, then loading *)

Lemma keep_dict_value d cleaned :
  Dict.wf (cleaned ++ d) ->
  (forall k v, (k, v) ∈ d -> 0 <= int_val v) ->
  keep (dict_items d) cleaned = cleaned ++ d.
Proof.
  revert cleaned. induction d as [|[k v] d IH]; intros cleaned Hwf Hnn.
  - simpl. by rewrite app_nil_r.
  - cbn [dict_items map keep fold_left fst snd].
    assert (valid_record (PyStr k) (of_int v) = Some (k, v)) as ->.
    { apply valid_record_Some. repeat split. apply (Hnn k v), list_elem_of_here. }
    assert (Dict.get k cleaned = None) as Hfresh.
    { apply DictFacts.get_None. unfold Dict.wf, Dict.keys in *.
      rewrite fmap_app in Hwf. apply NoDup_app in Hwf as (_ & Hdisj & _).
      intros Hin. apply (Hdisj k Hin). csimpl. apply list_elem_of_here. }
    rewrite (DictFacts.set_fresh _ _ _ Hfresh).
    match goal with |- fold_left ?f ?l ?c = _ => change (fold_left f l c) with (keep l c) end.
    rewrite IH.
    + by rewrite <- app_assoc.
    + by rewrite <- app_assoc.
    + intros k' v' Hin. apply (Hnn k' v'). by apply list_elem_of_further.
Qed.

Lemma save_data_ok `{JsonCodec} w file_path text :
  files w !! file_path <> Some Directory ->
  files w !! file_path <> Some NoAccess ->
  json_dump (stock_data w) = Ok text ->
  exists w', save_data file_path w = (Ok tt, w')
    /\ stock_data w' = stock_data w /\ heap w' = heap w
    /\ files w' = <[file_path := File text]> (files w).
Proof.
  intros Hdir Hacc Hdump. unfold save_data, open_write, write. run.
  destruct (files w !! file_path) as [[content| |]|] eqn:Hnode; try done;
    run; rewrite Hdump; run; (eexists; split; [reflexivity|]);
    cbn [stock_data heap files]; by rewrite insert_insert_eq.
Qed.

(** Saving and loading through any codec that reads back what it wrote. *)
Lemma save_load_with_codec `{JsonCodec} (w : world) (file_path text : str) :
  Dict.wf (stock_data w) ->
  (forall k v, (k, v) ∈ stock_data w -> 0 <= int_val v) ->
  json_dump (stock_data w) = Ok text ->
  json_load text = Ok (dict_value (stock_data w)) ->
  files w !! file_path <> Some Directory ->
  files w !! file_path <> Some NoAccess ->
  exists w1, save_data file_path w = (Ok tt, w1)
    /\ stock_data w1 = stock_data w
    /\ files w1 !! file_path = Some (File text)
    /\ forall w1', files w1' !! file_path = files w1 !! file_path ->
         exists w2, load_data file_path w1' = (Ok tt, w2)
           /\ stock_data w2 = stock_data w.
Proof.
  intros Hwf Hnn Hdump Hload Hdir Hacc.
  destruct (save_data_ok w file_path text Hdir Hacc Hdump)
    as (w1 & Hsave & Hst & _ & Hfiles).
  exists w1. split; [done|]. split; [done|].
  assert (files w1 !! file_path = Some (File text)) as Hfile.
  { rewrite Hfiles. apply lookup_insert_eq. }
  split; [done|]. intros w1' Hsame. rewrite Hfile in Hsame.
  destruct (load_data_ok w1' file_path text _ Hsame Hload) as (w2 & Hrun & Hst2 & _).
  exists w2. split; [done|]. rewrite Hst2.
  by apply (keep_dict_value (stock_data w) []).
Qed.



(** ** The store invariant *)

Lemma set_Forall (P : str * pyint -> Prop) d k v :
  Forall P d -> P (k, v) -> Forall P (Dict.set k v d).
Proof.
  intros Hd Hv. induction Hd as [|[k0 v0] d H0 Hd IH]; simpl.
  - by constructor.
  - destruct (decide (k0 = k)); by constructor.
Qed.

Lemma del_Forall (P : str * pyint -> Prop) d k :
  Forall P d -> Forall P (Dict.del k d).
Proof.
  intros Hd. induction Hd as [|[k0 v0] d H0 Hd IH]; simpl; [done|].
  destruct (decide (k0 = k)); [done | by constructor].
Qed.

Lemma get_Forall (P : str * pyint -> Prop) d k v :
  Forall P d -> Dict.get k d = Some v -> P (k, v).
Proof.
  intros Hd Hget. rewrite Forall_forall in Hd.
  by apply Hd, DictFacts.get_Some_elem.
Qed.

Lemma keep_Forall items cleaned :
  Forall (fun kv => 0 <= int_val kv.2) cleaned ->
  Forall (fun kv => 0 <= int_val kv.2) (keep items cleaned).
Proof.
  revert cleaned. induction items as [|[key value] items IH]; intros cleaned Hc; [done|].
  cbn [keep fold_left fst snd].
  destruct (valid_record key value) as [[k v]|] eqn:Hvalid; [|by apply IH].
  apply IH, set_Forall; [done|]. by apply valid_record_Some in Hvalid as (_ & _ & ?).
Qed.

(** What a call of [add_item] can do to the store. *)
Lemma add_item_cases item qty logs w :
  (exists e, add_item item qty logs w = (Raise e, w))
  \/ (exists s q w', 0 <= int_val q
        /\ add_item item qty logs w = (Ok tt, w')
        /\ stock_data w' =
             Dict.set s (PInt (int_val (quantity s (stock_data w)) + int_val q))
               (stock_data w)).
Proof.
  destruct (require_item_cases item w)
    as [(s & -> & Hs & Hrun)|(_ & e & Hrun & _)].
  - destruct (as_int qty) as [q|] eqn:Hq.
    + destruct (Z.ltb_spec (int_val q) 0) as [Hneg|Hnn].
      * left. unfold add_item. run. rewrite Hrun, Hq.
        apply Z.ltb_lt in Hneg. rewrite Hneg. by eexists.
      * right. destruct (add_item_ok w s qty q logs Hs Hq Hnn) as (w' & ? & ? & _).
        by exists s, q, w'.
    + left. unfold add_item. run. rewrite Hrun, Hq. by eexists.
  - left. unfold add_item. run. rewrite Hrun. by eexists.
Qed.

(** What a call of [remove_item] can do to the store. *)
Lemma remove_item_cases item qty w :
  (exists e, remove_item item qty w = (Raise e, w))
  \/ (exists s n w', 0 < n
        /\ remove_item item qty w = (Ok tt, w')
        /\ (stock_data w' = Dict.set s (PInt n) (stock_data w)
            \/ stock_data w' = Dict.del s (stock_data w))).
Proof.
  destruct (require_item_cases item w)
    as [(s & -> & Hs & Hrun)|(_ & e & Hrun & _)].
  - destruct (as_int qty) as [q|] eqn:Hq.
    + destruct (Z.leb_spec (int_val q) 0) as [Hle|Hpos].
      * left. unfold remove_item. run. rewrite Hrun, Hq.
        apply Z.leb_le in Hle. rewrite Hle. by eexists.
      * destruct (Dict.get s (stock_data w)) as [cur|] eqn:Hcur.
        -- right.
           destruct (remove_item_ok w s qty q cur Hs Hq Hpos Hcur) as (w' & ? & Hst & _).
           destruct (Z.ltb_spec 0 (int_val cur - int_val q)) as [Hnew|Hnew].
           ++ exists s, (int_val cur - int_val q), w'. by eauto.
           ++ exists s, 1, w'. split; [lia|]. by eauto.
        -- left. unfold remove_item. run. rewrite Hrun, Hq.
           apply Z.leb_gt in Hpos. rewrite Hpos. run.
           unfold Dict.mem. rewrite Hcur. cbn [negb]. by eexists.
    + left. unfold remove_item. run. rewrite Hrun, Hq. by eexists.
  - left. unfold remove_item. run. rewrite Hrun. by eexists.
Qed.

(** What a call of [load_data] can do to the store: nothing, empty it, or
    put the valid records of a file in its place. *)
Lemma load_data_cases `{JsonCodec} file_path w r w' :
  load_data file_path w = (r, w') ->
  stock_data w' = stock_data w \/ stock_data w' = []
  \/ exists items, stock_data w' = keep items [].
Proof.
  unfold load_data, try_except.
  destruct (load_try file_path w) as [[[]|e] w1] eqn:Htry.
  - intros [= <- <-]. revert Htry. unfold load_try, open_read. run.
    destruct (files w !! file_path) as [[text| |]|]; try discriminate.
    destruct (json_load text) as [data|]; [|discriminate].
    destruct data as [| | | | | |items]; try discriminate.
    destruct (load_records_run items [] w) as (w2 & -> & _).
    run. intros [= <-]. right. right. by exists items.
  - assert (stock_data w1 = stock_data w) as Hsame.
    { revert Htry. unfold load_try, open_read. run.
      destruct (files w !! file_path) as [[text| |]|]; try by intros [= _ <-].
      destruct (json_load text) as [data|]; [|by intros [= _ <-]].
      destruct data as [| | | | | |items]; try by intros [= _ <-].
      destruct (load_records_run items [] w) as (w2 & -> & _). run. discriminate. }
    unfold load_except.
    destruct (isinstance e FileNotFoundError).
    + run. intros [= <- <-]. by right; left.
    + destruct (isinstance e JSONDecodeError || isinstance e OSError
                || isinstance e ValueError).
      * run. intros [= <- <-]. by left.
      * intros [= <- <-]. by left.
Qed.

Lemma save_data_stock `{JsonCodec} file_path w r w' :
  save_data file_path w = (r, w') -> stock_data w' = stock_data w.
Proof.
  unfold save_data, open_write, write. run.
  destruct (files w !! file_path) as [[content| |]|]; try (by intros [= _ <-]);
    run; (destruct (json_dump (stock_data w)); run; by intros [= _ <-]).
Qed.

Lemma get_qty_stock item w r w' : get_qty item w = (r, w') -> w' = w.
Proof.
  unfold get_qty. run.
  destruct (require_item_cases item w) as [(s & -> & _ & ->)|(_ & e & -> & _)];
    by intros [= _ <-].
Qed.

Lemma check_low_items_stock threshold w r w' :
  check_low_items threshold w = (r, w') -> w' = w.
Proof.
  unfold check_low_items. run.
  destruct (as_int threshold) as [t|]; [|by intros [= _ <-]].
  destruct (int_val t <? 0); by intros [= _ <-].
Qed.

(** Every method keeps the invariant of the store. *)
Lemma step_store_ok w w' :
  step w w' -> store_ok (stock_data w) -> store_ok (stock_data w').
Proof.
  intros Hstep [Hwf Hnn].
  destruct Hstep as [item qty logs r Hrun|item qty r Hrun|item r Hrun
                    |threshold r Hrun|codec file_path r Hrun|codec file_path r Hrun].
  - destruct (add_item_cases item qty logs w)
      as [(e & He)|(s & q & w1 & Hq & Hok & Hst)]; rewrite Hrun in *.
    + by injection He as _ <-.
    + injection Hok as _ <-. rewrite Hst. split; [by apply DictFacts.wf_set|].
      apply set_Forall; [done|]. simpl. unfold quantity.
      destruct (Dict.get s (stock_data w)) as [cur|] eqn:Hcur; simpl; [|lia].
      pose proof (get_Forall _ _ _ _ Hnn Hcur) as Hcur0. simpl in Hcur0. lia.
  - destruct (remove_item_cases item qty w)
      as [(e & He)|(s & n & w1 & Hn & Hok & [Hst|Hst])]; rewrite Hrun in *.
    + by injection He as _ <-.
    + injection Hok as _ <-. rewrite Hst. split; [by apply DictFacts.wf_set|].
      apply set_Forall; [done|]. simpl. lia.
    + injection Hok as _ <-. rewrite Hst.
      split; [by apply DictFacts.wf_del | by apply del_Forall].
  - by rewrite (get_qty_stock _ _ _ _ Hrun).
  - by rewrite (check_low_items_stock _ _ _ _ Hrun).
  - destruct (load_data_cases _ _ _ _ Hrun) as [->|[->|[items ->]]].
    + done.
    + split; constructor.
    + split; [apply keep_wf; constructor | apply keep_Forall; constructor].
  - by rewrite (save_data_stock _ _ _ _ Hrun).
Qed.

(** X5.  In every state a new [InventoryManager] reaches through calls of
    its methods, whatever they return and whatever the codec, the store is a
    dictionary (each key once) of quantities that are not negative. *)
Lemma reachable_store_ok w : reachable w -> store_ok (stock_data w).
Proof.
  induction 1 as [w|w w' _ IH Hstep].
  - split; constructor.
  - by apply (step_store_ok w w').
Qed.

(** * Further properties of the methods *)

(** ** The methods, step by step

    What each method returns and leaves behind on the paths that do not
    depend on the codec. *)

Lemma add_item_exact w s qty q l :
  strip s <> [] -> as_int qty = Some q -> 0 <= int_val q ->
  let total := PInt (int_val (quantity s (stock_data w)) + int_val q) in
  add_item (PyStr s) qty (Some l) w
  = (Ok tt,
     World (Dict.set s total (stock_data w))
       (alter (fun lines => lines ++ [audit_line (isoformat_seconds (now w)) q s]) l (heap w))
       (files w) (now w)
       (logged w ++ [LogRecord DEBUG "Added %d of %s (new total=%d)"
                       [ArgValue qty; ArgValue (PyStr s); ArgValue (of_int total)]])).
Proof.
  intros Hs Hq Hnn total. unfold add_item. run.
  rewrite (require_item_ok s w Hs), Hq.
  destruct (int_val q <? 0) eqn:Hlt; [apply Z.ltb_lt in Hlt; lia|].
  run. by rewrite DictFacts.get_set_eq.
Qed.

Lemma add_item_negative w s qty q logs :
  strip s <> [] -> as_int qty = Some q -> int_val q < 0 ->
  add_item (PyStr s) qty logs w
  = (Raise (Exn ValueError (py "qty must be a non-negative integer")), w).
Proof.
  intros Hs Hq Hneg. unfold add_item. run.
  rewrite (require_item_ok s w Hs), Hq. apply Z.ltb_lt in Hneg. by rewrite Hneg.
Qed.

Lemma remove_item_exact w s qty q cur :
  strip s <> [] -> as_int qty = Some q -> 0 < int_val q ->
  Dict.get s (stock_data w) = Some cur ->
  let left := int_val cur - int_val q in
  let stock := if 0 <? left then Dict.set s (PInt left) (stock_data w)
               else Dict.del s (stock_data w) in
  remove_item (PyStr s) qty w
  = (Ok tt,
     World stock (heap w) (files w) (now w)
       (logged w ++ [LogRecord DEBUG "Removed %d of %s (remaining=%s)"
                       [ArgValue qty; ArgValue (PyStr s);
                        ArgValue (match Dict.get s stock with
                                  | Some r => of_int r
                                  | None => PyNone
                                  end)]])).
Proof.
  intros Hs Hq Hpos Hcur left stock. subst left stock. unfold remove_item. run.
  rewrite (require_item_ok s w Hs), Hq.
  destruct (int_val q <=? 0) eqn:Hle; [apply Z.leb_le in Hle; lia|].
  run. unfold Dict.mem. rewrite Hcur. cbn [negb]. run. rewrite !Hcur.
  by destruct (0 <? int_val cur - int_val q); run.
Qed.

Lemma remove_item_missing w s qty q :
  strip s <> [] -> as_int qty = Some q -> 0 < int_val q ->
  Dict.get s (stock_data w) = None ->
  remove_item (PyStr s) qty w
  = (Raise (Exn KeyError (py "Item '" ++ s ++ py "' not found in inventory")), w).
Proof.
  intros Hs Hq Hpos Habs. unfold remove_item. run.
  rewrite (require_item_ok s w Hs), Hq.
  destruct (int_val q <=? 0) eqn:Hle; [apply Z.leb_le in Hle; lia|].
  run. unfold Dict.mem. by rewrite Habs.
Qed.

Lemma save_data_exact w file_path :
  files w !! file_path <> Some Directory ->
  files w !! file_path <> Some NoAccess ->
  Json.encodable (Json.dumps (stock_data w)) = true ->
  save_data file_path w
  = (Ok tt,
     World (stock_data w) (heap w)
       (<[file_path := File (Json.dumps (stock_data w))]> (files w)) (now w)
       (logged w ++ [LogRecord INFO "Saved %d items to %s"
                       [ArgValue (len (stock_data w)); ArgValue (PyStr file_path)]])).
Proof.
  intros Hdir Hacc Henc. unfold save_data, open_write, write. run.
  destruct (files w !! file_path) as [[content| |]|]; try done;
    run; cbn [json_dump Json.codec]; rewrite Henc; run; by rewrite insert_insert_eq.
Qed.

Lemma require_item_raises item w :
  (forall s, item = PyStr s -> strip s = []) ->
  require_item item w = (Raise (Exn ValueError (py "item must be a non-empty string")), w).
Proof.
  intros Hbad. unfold require_item.
  destruct item as [| | | |s| |]; try done. cbn [as_str].
  by rewrite bool_decide_eq_true_2 by by apply Hbad.
Qed.

(** ** Invalid arguments *)

(** X1.  [remove_item] with an item that is not a string or is blank after
    trimming, with a [qty] that is not an integer, or with an integer
    [qty <= 0] raises [ValueError] and returns the world it was given: the
    store, the lists, the files and the log are untouched.  Zero is refused
    here, while [add_item] accepts it. *)
Theorem remove_item_invalid (w : world) (item qty : pyvalue) :
  (forall s, item = PyStr s -> strip s = [])
  \/ as_int qty = None
  \/ (exists q, as_int qty = Some q /\ int_val q <= 0) ->
  exists e, remove_item item qty w = (Raise e, w) /\ exn_type e = ValueError.
Proof.
  intros Hbad. unfold remove_item. run.
  destruct (require_item_cases item w)
    as [(s & -> & Hs & ->)|(Hempty & e & -> & He)]; [|by exists e].
  destruct Hbad as [Hbad|[Hbad|(q & Hq & Hneg)]].
  - exfalso. apply Hs. by apply Hbad.
  - rewrite Hbad. by eexists.
  - rewrite Hq. apply Z.leb_le in Hneg. rewrite Hneg. by eexists.
Qed.

Lemma remove_item_invalid_witness :
  let w := set_stock_data [(apple, PInt 7)] fresh_world in
  exists e, remove_item (PyStr apple) (PyInt 0) w = (Raise e, w)
    /\ exn_type e = ValueError.
Proof.
  intros w. apply (remove_item_invalid w (PyStr apple) (PyInt 0)).
  right. right. exists (PInt 0). split; [reflexivity | simpl; lia].
Defined.

(** X2.  An item that fails the guard is reported before anything else is
    looked at: whatever [qty] and [logs] are, [add_item], [remove_item] and
    [get_qty] raise the same [ValueError], with the message
    [item must be a non-empty string], and return the world they were
    given. *)
Theorem item_checked_first
    (w : world) (item qty : pyvalue) (logs : option loc) :
  (forall s, item = PyStr s -> strip s = []) ->
  let e := Exn ValueError (py "item must be a non-empty string") in
  add_item item qty logs w = (Raise e, w)
  /\ remove_item item qty w = (Raise e, w)
  /\ get_qty item w = (Raise e, w).
Proof.
  intros Hbad e. subst e. unfold add_item, remove_item, get_qty. run.
  by rewrite (require_item_raises item w Hbad).
Qed.

Lemma item_checked_first_witness :
  let w := set_stock_data [(apple, PInt 7)] fresh_world in
  let e := Exn ValueError (py "item must be a non-empty string") in
  add_item (PyStr (py "  ")) (PyStr (py "many")) None w = (Raise e, w)
  /\ remove_item (PyStr (py "  ")) (PyStr (py "many")) w = (Raise e, w)
  /\ get_qty (PyStr (py "  ")) w = (Raise e, w).
Proof.
  intros w. apply (item_checked_first w (PyStr (py "  ")) (PyStr (py "many")) None).
  intros s [= <-]. by vm_compute.
Defined.

(** ** Adding, then removing *)

Lemma del_absent {V} (d : list (str * V)) k : Dict.get k d = None -> Dict.del k d = d.
Proof.
  induction d as [|[k0 v0] d IH]; simpl; [done|].
  destruct (decide (k0 = k)); [done|]. intros Hg. by rewrite IH.
Qed.

Lemma del_set_absent {V} (d : list (str * V)) k v :
  Dict.get k d = None -> Dict.del k (Dict.set k v d) = d.
Proof.
  induction d as [|[k0 v0] d IH]; simpl.
  - by rewrite decide_True.
  - destruct (decide (k0 = k)) as [->|Hne]; [done|]. intros Hg.
    simpl. rewrite decide_False by done. by rewrite IH.
Qed.

Lemma set_set {V} (d : list (str * V)) k v v' :
  Dict.set k v' (Dict.set k v d) = Dict.set k v' d.
Proof.
  induction d as [|[k0 v0] d IH]; simpl.
  - by rewrite decide_True.
  - destruct (decide (k0 = k)) as [->|Hne]; simpl.
    + by rewrite decide_True.
    + rewrite decide_False by done. by rewrite IH.
Qed.



(** ** The order of additions *)

Lemma total_added_Permutation item calls calls' :
  calls ≡ₚ calls' -> total_added item calls = total_added item calls'.
Proof.
  induction 1 as [|c l l' _ IH|c c' l|l l' l'' _ IH1 _ IH2]; simpl.
  - done.
  - by rewrite IH.
  - repeat case_decide; lia.
  - congruence.
Qed.



(** ** Examples for the store invariant and the missing file *)

Lemma reachable_store_ok_witness :
  exists w, add_item (PyStr apple) (PyInt 10) None (init fresh_world) = (Ok tt, w)
    /\ store_ok (stock_data w).
Proof.
  eexists. split; [reflexivity|].
  apply reachable_store_ok.
  eapply reachable_step; [apply (reachable_init fresh_world)|].
  eapply (step_add_item _ _ (PyStr apple) (PyInt 10) None). reflexivity.
Defined.


(** ** What [load_data] does, in one function *)

Lemma load_records_logged items cleaned w :
  load_records items cleaned w
  = (Ok (keep items cleaned), set_logged (logged w ++ dropped items) w).
Proof.
  revert cleaned w. induction items as [|[key value] items IH]; intros cleaned w.
  - unfold dropped. simpl. rewrite app_nil_r. by destruct w.
  - cbn [load_records keep fold_left fst snd]. unfold dropped.
    destruct (valid_record key value) as [[k v]|] eqn:Hvalid.
    + rewrite filter_cons_False by (simpl; congruence). apply IH.
    + rewrite filter_cons_True by done. run. rewrite IH. unfold dropped.
      cbn [logged set_logged stock_data heap files now map fst snd].
      by rewrite <- app_assoc.
Qed.

Section load_summary.
Context `{JsonCodec}.

Lemma load_data_loaded file_path w r w' :
  load_data file_path w = (r, w') ->
  (r, stock_data w') = loaded (files w !! file_path) (stock_data w)
  /\ files w' = files w /\ heap w' = heap w /\ now w' = now w.
Proof.
  unfold load_data, try_except, load_try, open_read, load_except, loaded. run.
  destruct (files w !! file_path) as [[text| |]|]; try by intros [= <- <-].
  destruct (json_load text) as [data|e].
  - destruct data as [| | | | | |items]; try by intros [= <- <-].
    destruct (load_records_run items [] w) as (w2 & -> & Hst & Hheap & Hfiles & Hnow).
    run. intros [= <- <-]. by rewrite Hheap, Hfiles, Hnow.
  - destruct (isinstance e FileNotFoundError); [by intros [= <- <-]|].
    assert (isinstance e JSONDecodeError || isinstance e OSError || isinstance e ValueError
            = isinstance e OSError || isinstance e ValueError) as ->.
    { destruct e as [c m]. by destruct c. }
    destruct (isinstance e OSError || isinstance e ValueError); by intros [= <- <-].
Qed.

(** X7.  Loading the same path twice in a row, with the files unchanged in
    between, gives the same outcome and the same store as loading it once:
    whatever is at the path, and whatever the codec does with it, the second
    [load_data] ends as the first did and leaves [stock_data] as the first
    left it. *)
Theorem load_data_twice file_path w r1 w1 r2 w2 :
  load_data file_path w = (r1, w1) ->
  load_data file_path w1 = (r2, w2) ->
  r2 = r1 /\ stock_data w2 = stock_data w1.
Proof.
  intros Hfirst Hsecond.
  apply load_data_loaded in Hfirst as (Hone & Hfiles & _).
  apply load_data_loaded in Hsecond as (Htwo & _).
  rewrite Hfiles in Htwo. revert Hone Htwo. unfold loaded.
  destruct (files w !! file_path) as [[text| |]|];
    try (intros [= -> ->] [= -> ->]; done).
  destruct (json_load text) as [data|e].
  - destruct data; intros [= -> ->] [= -> ->]; done.
  - destruct (isinstance e FileNotFoundError); [by intros [= -> ->] [= -> ->]|].
    destruct (isinstance e OSError || isinstance e ValueError);
      by intros [= -> ->] [= -> ->].
Qed.

(** X8.  [load_data] does not swallow every exception: one raised by
    [json.load] that is neither an [OSError] nor a [ValueError] (a
    [RecursionError] on a deeply nested document, say) passes both [except]
    clauses and reaches the caller, with the world as it was. *)
Theorem load_data_propagates file_path w text e :
  files w !! file_path = Some (File text) ->
  json_load text = Raise e ->
  isinstance e OSError = false -> isinstance e ValueError = false ->
  load_data file_path w = (Raise e, w).
Proof.
  intros Hfile Hload Hos Hvalue.
  unfold load_data, try_except, load_try, open_read, load_except. run.
  rewrite Hfile, Hload.
  assert (isinstance e FileNotFoundError = false) as ->.
  { destruct e as [c m]. by destruct c. }
  assert (isinstance e JSONDecodeError = false) as ->.
  { destruct e as [c m]. by destruct c. }
  by rewrite Hos, Hvalue.
Qed.
End load_summary.

Lemma load_data_exact `{JsonCodec} w file_path text items :
  files w !! file_path = Some (File text) ->
  json_load text = Ok (PyDict items) ->
  load_data file_path w
  = (Ok tt,
     World (keep items []) (heap w) (files w) (now w)
       (logged w ++ dropped items
        ++ [LogRecord INFO "Loaded %d items from %s"
              [ArgValue (len (keep items [])); ArgValue (PyStr file_path)]])).
Proof.
  intros Hfile Hload. unfold load_data, try_except, load_try, open_read. run.
  rewrite Hfile, Hload, load_records_logged. run.
  cbn [logged set_logged stock_data heap files now]. by rewrite <- app_assoc.
Qed.

Lemma load_data_twice_witness :
  let w := World [(apple, PInt 7)] ∅
             {[ inventory_json := File (json_text "{'x': 3, 'y': -1}") ]} noon [] in
  exists r1 w1 r2 w2,
    load_data inventory_json w = (r1, w1)
    /\ load_data inventory_json w1 = (r2, w2)
    /\ (r2 = r1 /\ stock_data w2 = stock_data w1)
    /\ stock_data w1 = [(py "x", PInt 3)].
Proof.
  intros w. eexists _, _, _, _.
  split; [vm_compute; reflexivity|]. split; [vm_compute; reflexivity|].
  split; [|reflexivity].
  apply (load_data_twice inventory_json w); vm_compute; reflexivity.
Defined.

Lemma load_data_propagates_witness :
  let w := World [(apple, PInt 7)] ∅
             {[ inventory_json := File (json_text "[[[[1]]]]") ]} noon [] in
  exists e, @load_data exhausted_codec inventory_json w = (Raise e, w)
    /\ exn_type e = RecursionError.
Proof.
  intros w. eexists. split.
  - apply (@load_data_propagates exhausted_codec inventory_json w
             (json_text "[[[[1]]]]")).
    + by vm_compute.
    + reflexivity.
    + reflexivity.
    + reflexivity.
  - reflexivity.
Defined.

(** ** What [save_data] touches *)

Lemma save_data_unwritable `{JsonCodec} (file_path : str) (w : world) :
  files w !! file_path = Some Directory \/ files w !! file_path = Some NoAccess ->
  exists e, save_data file_path w = (Raise e, w) /\ isinstance e OSError = true.
Proof.
  intros Hnode. unfold save_data, open_write. run.
  destruct Hnode as [-> | ->]; by eexists.
Qed.

Lemma save_data_heap `{JsonCodec} (file_path : str) (w : world) r w' :
  save_data file_path w = (r, w') -> heap w' = heap w.
Proof.
  unfold save_data, open_write, write. run.
  destruct (files w !! file_path) as [[content| |]|]; try (by intros [= _ <-]);
    run; (destruct (json_dump (stock_data w)); run; by intros [= _ <-]).
Qed.

(** X9.  [save_data], whatever it returns and whatever the codec, leaves the
    store and the lists as they were and touches no file but the one at its
    path; when the path is a directory or cannot be opened it raises an
    [OSError] to the caller, which nothing in the method catches, and
    changes nothing at all. *)
Theorem save_data_frame `{JsonCodec} (file_path : str) (w : world) r w' :
  save_data file_path w = (r, w') ->
  stock_data w' = stock_data w /\ heap w' = heap w
  /\ (forall p, p <> file_path -> files w' !! p = files w !! p)
  /\ (files w !! file_path = Some Directory \/ files w !! file_path = Some NoAccess ->
        w' = w /\ exists e, r = Raise e /\ isinstance e OSError = true).
Proof.
  unfold save_data, open_write, write. run.
  assert (forall text p, p <> file_path ->
            <[file_path:=File text]> (<[file_path:=File []]> (files w)) !! p
            = files w !! p) as Hwritten.
  { intros text p Hp. by rewrite !lookup_insert_ne. }
  assert (forall p, p <> file_path ->
            <[file_path:=File []]> (files w) !! p = files w !! p) as Hopened.
  { intros p Hp. by rewrite lookup_insert_ne. }
  destruct (files w !! file_path) as [[content| |]|] eqn:Hnode.
  - run. destruct (json_dump (stock_data w)) as [text|e]; run;
      intros [= <- <-]; cbn [stock_data heap files];
      (split; [done|]; split; [done|]; split; [auto|]; by intros [|]).
  - intros [= <- <-]. split; [done|]. split; [done|]. split; [done|].
    intros _. split; [done|]. by eexists.
  - intros [= <- <-]. split; [done|]. split; [done|]. split; [done|].
    intros _. split; [done|]. by eexists.
  - run. destruct (json_dump (stock_data w)) as [text|e]; run;
      intros [= <- <-]; cbn [stock_data heap files];
      (split; [done|]; split; [done|]; split; [auto|]; by intros [|]).
Qed.

Lemma save_data_frame_witness :
  let w := World [(apple, PInt 7)] ∅
             {[ inventory_json := Directory; py "notes.txt" := File (py "keep") ]} noon [] in
  exists r w', save_data inventory_json w = (r, w')
    /\ w' = w /\ exists e, r = Raise e /\ isinstance e OSError = true.
Proof.
  intros w. eexists _, _. split; [vm_compute; reflexivity|].
  refine (proj2 (proj2 (proj2 (save_data_frame inventory_json w _ _ _))) _).
  - vm_compute; reflexivity.
  - left. by vm_compute.
Defined.

(** ** [check_low_items]: order and thresholds *)

Lemma check_low_items_ok w t :
  0 <= int_val t ->
  check_low_items (of_int t) w
  = (Ok (filter (fun nq => int_val nq.2 < int_val t) (stock_data w)).*1, w).
Proof.
  intros Hnn. unfold check_low_items. run. rewrite as_int_of_int.
  destruct (Z.ltb_spec (int_val t) 0); [lia|]. done.
Qed.

(** X10.  The names [check_low_items] returns come in the order of the
    store's keys, and a larger threshold only adds names: for thresholds
    [0 <= t1 <= t2] the first answer is a sublist of the second, which is a
    sublist of the keys; with threshold 0 and no negative quantity stored
    the answer is empty.  The store is not changed. *)
Theorem check_low_items_monotone (w : world) (t1 t2 : pyint) :
  0 <= int_val t1 -> int_val t1 <= int_val t2 ->
  exists low1 low2,
    check_low_items (of_int t1) w = (Ok low1, w)
    /\ check_low_items (of_int t2) w = (Ok low2, w)
    /\ low1 `sublist_of` low2
    /\ low2 `sublist_of` Dict.keys (stock_data w)
    /\ (Forall (fun kv => 0 <= int_val kv.2) (stock_data w) ->
          int_val t1 = 0 -> low1 = []).
Proof.
  intros Hnn Hle. eexists _, _.
  split; [by apply check_low_items_ok|].
  split; [apply check_low_items_ok; lia|].
  unfold Dict.keys. induction (stock_data w) as [|[k v] d (IH1 & IH2 & IH3)].
  - split; [constructor|]. split; [constructor|]. done.
  - pose (P1 := fun nq : str * pyint => int_val nq.2 < int_val t1).
    pose (P2 := fun nq : str * pyint => int_val nq.2 < int_val t2).
    fold P1 P2 in IH1, IH2, IH3 |- *.
    destruct (decide (int_val v < int_val t1)) as [Hlow|Hhigh].
    + rewrite (filter_cons_True P1), (filter_cons_True P2) by (unfold P1, P2; simpl; lia).
      csimpl. split; [by constructor|]. split; [by constructor|].
      intros Hall Hzero. apply Forall_cons in Hall as [Hv _]. simpl in *. lia.
    + rewrite (filter_cons_False P1) by done.
      destruct (decide (int_val v < int_val t2)) as [Hlow2|Hhigh2].
      * rewrite (filter_cons_True P2) by done. csimpl.
        split; [by constructor|]. split; [by constructor|].
        intros Hall Hzero. apply Forall_cons in Hall as [_ Hall]. by apply IH3.
      * rewrite (filter_cons_False P2) by done. csimpl.
        split; [done|]. split; [by constructor|].
        intros Hall Hzero. apply Forall_cons in Hall as [_ Hall]. by apply IH3.
Qed.

Lemma check_low_items_monotone_witness :
  let w := set_stock_data [(apple, PInt 7); (banana, PInt 2); (orange, PInt 0)] fresh_world in
  exists low1 low2,
    check_low_items (PyInt 0) w = (Ok low1, w)
    /\ check_low_items (PyInt 5) w = (Ok low2, w)
    /\ low1 `sublist_of` low2
    /\ low2 `sublist_of` Dict.keys (stock_data w)
    /\ (Forall (fun kv => 0 <= int_val kv.2) (stock_data w) ->
          int_val (PInt 0) = 0 -> low1 = []).
Proof.
  intros w. apply (check_low_items_monotone w (PInt 0) (PInt 5)); simpl; lia.
Defined.

(** ** [print_data] *)

#[global] Instance str_le_total : Total str_le.
Proof.
  unfold str_le. intros a. induction a as [|x a IH]; intros [|y b]; simpl; auto.
  destruct (N.ltb_spec x y), (N.ltb_spec y x); auto; lia.
Qed.

#[global] Instance str_le_trans : Transitive str_le.
Proof.
  unfold str_le. intros a. induction a as [|x a IH]; intros [|y b] [|z c]; simpl; auto;
    try discriminate.
  destruct (N.ltb_spec x y), (N.ltb_spec y x), (N.ltb_spec y z), (N.ltb_spec z y),
    (N.ltb_spec x z), (N.ltb_spec z x); try done; try lia.
  apply IH.
Qed.

#[global] Instance str_le_antisymm : AntiSymm (=) str_le.
Proof.
  unfold str_le. intros a. induction a as [|x a IH]; intros [|y b]; simpl; auto;
    try discriminate.
  destruct (N.ltb_spec x y), (N.ltb_spec y x); try done; try lia.
  intros Hab Hba. f_equal; [lia | by apply IH].
Qed.

Lemma print_lines names h :
  Forall (fun n => n ∈ Dict.keys (stock_data (world_of h))) names ->
  for_each names print_item h
  = (Ok tt, Host (stdout h ++ map (report_line (stock_data (world_of h))) names)
              (world_of h)).
Proof.
  intros Hnames. revert h Hnames.
  induction names as [|n names IH]; intros [out w] Hnames.
  - simpl. by rewrite app_nil_r.
  - apply Forall_cons in Hnames as [Hn Hnames]. cbn [world_of stdout] in *.
    destruct (Dict.get n (stock_data w)) as [v|] eqn:Hget.
    2:{ by apply DictFacts.get_None in Hget. }
    assert (print_item n (Host out w)
            = (Ok tt, Host (out ++ [report_line (stock_data w) n]) w)) as Hline.
    { unfold print_item, report_line, quantity.
      cbv beta iota zeta delta [mbind IO_bind call print stock_getitem].
      cbn [world_of stdout]. by rewrite Hget. }
    cbn [for_each]. cbv beta iota zeta delta [mbind IO_bind].
    rewrite Hline, (IH (Host (out ++ [report_line (stock_data w) n]) w)) by done.
    cbn [world_of stdout map]. by rewrite <- app_assoc.
Qed.

Lemma print_data_exact (h : host) :
  let d := stock_data (world_of h) in
  print_data h
  = (Ok tt, Host (stdout h ++ [PyStr (py "Items Report")]
                    :: map (report_line d) (sorted (Dict.keys d)))
              (world_of h)).
Proof.
  intros d. subst d. destruct h as [out w]. cbn [world_of stdout].
  unfold print_data.
  cbv beta iota zeta delta [mbind IO_bind call print reads]. cbn [world_of stdout].
  rewrite print_lines.
  - cbn [world_of stdout]. by rewrite <- app_assoc.
  - cbn [world_of]. apply Forall_forall. intros n Hn.
    unfold sorted in Hn. by rewrite merge_sort_Permutation in Hn.
Qed.


(** ** What [load_data] logs, and the order it keeps *)

(** X12.  A load that succeeds logs one warning for each entry it drops, in
    the order of the file, and then one information record with the number
    of items kept and the path; nothing else is logged. *)
Theorem load_data_logs `{JsonCodec}
    (w : world) (file_path text : str) (items : list (pyvalue * pyvalue)) :
  files w !! file_path = Some (File text) ->
  json_load text = Ok (PyDict items) ->
  exists w', load_data file_path w = (Ok tt, w')
    /\ logged w'
       = logged w ++ dropped items
         ++ [LogRecord INFO "Loaded %d items from %s"
               [ArgValue (len (stock_data w')); ArgValue (PyStr file_path)]].
Proof.
  intros Hfile Hload. eexists. split; [by apply (load_data_exact w file_path text items)|].
  done.
Qed.

Lemma load_data_logs_witness :
  let text := json_text "{'x': 3, 'y': -1, 'z': 'bad'}" in
  let items := [(PyStr (py "x"), PyInt 3); (PyStr (py "y"), PyInt (-1));
                (PyStr (py "z"), PyStr (py "bad"))] in
  let w := World [(apple, PInt 7)] ∅ {[ inventory_json := File text ]} noon [] in
  exists w', load_data inventory_json w = (Ok tt, w')
    /\ logged w'
       = logged w ++ dropped items
         ++ [LogRecord INFO "Loaded %d items from %s"
               [ArgValue (len (stock_data w')); ArgValue (PyStr inventory_json)]].
Proof.
  intros text items w. apply (load_data_logs w inventory_json text items).
  - by vm_compute.
  - by vm_compute.
Defined.

Lemma keep_in_order items cleaned :
  NoDup items.*1 ->
  (forall k value, (PyStr k, value) ∈ items -> Dict.get k cleaned = None) ->
  keep items cleaned = cleaned ++ omap (fun kv => valid_record kv.1 kv.2) items.
Proof.
  revert cleaned. induction items as [|[key value] items IH]; intros cleaned Hnd Hfresh.
  - simpl. by rewrite app_nil_r.
  - csimpl in Hnd. apply NoDup_cons in Hnd as [Hkey Hnd].
    cbn [keep fold_left fst snd omap].
    change (fold_left ?f items ?c) with (keep items c).
    destruct (valid_record key value) as [[k v]|] eqn:Hvalid.
    + pose proof Hvalid as Hkept.
      apply valid_record_Some in Hvalid as (-> & -> & Hnn).
      rewrite DictFacts.set_fresh by (apply (Hfresh k (of_int v)), list_elem_of_here).
      csimpl. rewrite Hkept, IH; [by rewrite <- app_assoc | done |].
      intros k' value' Hin.
      assert (k <> k') as Hne.
      { intros ->. apply Hkey. apply list_elem_of_fmap. by exists (PyStr k', value'). }
      rewrite <- (DictFacts.set_fresh cleaned k v)
        by (apply (Hfresh k (of_int v)), list_elem_of_here).
      rewrite DictFacts.get_set_ne by done.
      apply (Hfresh k' value'). by apply list_elem_of_further.
    + csimpl. rewrite Hvalid. apply IH; [done|]. intros k' value' Hin.
      apply (Hfresh k' value'). by apply list_elem_of_further.
Qed.

(** X13.  The loaded store keeps the order of the file: when no key occurs
    twice in the decoded object, [stock_data] after the load is the list of
    the object's valid entries in the order they were read, so its keys are
    a sublist of the object's string keys. *)
Theorem load_data_in_file_order `{JsonCodec}
    (w : world) (file_path text : str) (items : list (pyvalue * pyvalue)) :
  files w !! file_path = Some (File text) ->
  json_load text = Ok (PyDict items) ->
  NoDup items.*1 ->
  exists w', load_data file_path w = (Ok tt, w')
    /\ stock_data w' = omap (fun kv => valid_record kv.1 kv.2) items
    /\ Dict.keys (stock_data w') `sublist_of` omap (fun kv => as_str kv.1) items.
Proof.
  intros Hfile Hload Hnd.
  destruct (load_data_ok w file_path text items Hfile Hload) as (w' & Hrun & Hst & _).
  exists w'. split; [done|]. rewrite Hst, (keep_in_order items []) by done. simpl.
  split; [done|]. unfold Dict.keys. clear.
  induction items as [|[key value] items IH]; [constructor|]. csimpl.
  destruct (valid_record key value) as [[k v]|] eqn:Hvalid.
  - apply valid_record_Some in Hvalid as (-> & _ & _). csimpl. by constructor.
  - destruct (as_str key); csimpl; [by constructor | done].
Qed.

Lemma load_data_in_file_order_witness :
  let text := json_text "{'pear': 3, 'y': -1, 'apple': 2}" in
  let items := [(PyStr (py "pear"), PyInt 3); (PyStr (py "y"), PyInt (-1));
                (PyStr (py "apple"), PyInt 2)] in
  let w := World [(apple, PInt 7)] ∅ {[ inventory_json := File text ]} noon [] in
  exists w', load_data inventory_json w = (Ok tt, w')
    /\ stock_data w' = [(py "pear", PInt 3); (py "apple", PInt 2)]
    /\ Dict.keys (stock_data w') `sublist_of` [py "pear"; py "y"; py "apple"].
Proof.
  intros text items w.
  apply (load_data_in_file_order w inventory_json text items).
  - by vm_compute.
  - by vm_compute.
  - repeat (apply NoDup_cons; split);
      rewrite ?not_elem_of_cons; repeat split;
      try discriminate; try apply not_elem_of_nil; try apply NoDup_nil; exact I.
Defined.

(** ** What each method leaves alone *)

Lemma add_item_leaves item qty logs w r w' :
  add_item item qty logs w = (r, w') -> files w' = files w /\ now w' = now w.
Proof.
  intros Hrun.
  destruct (require_item_cases item w)
    as [(s & -> & Hs & Hitem)|(_ & e & Hitem & _)].
  - destruct (as_int qty) as [q|] eqn:Hq.
    + destruct (Z.ltb_spec (int_val q) 0) as [Hneg|Hnn].
      * revert Hrun. unfold add_item. run. rewrite Hitem, Hq.
        apply Z.ltb_lt in Hneg. rewrite Hneg. by intros [= _ <-].
      * destruct (add_item_ok w s qty q logs Hs Hq Hnn) as (w1 & Hok & _ & ? & ?).
        rewrite Hok in Hrun. by injection Hrun as _ <-.
    + revert Hrun. unfold add_item. run. rewrite Hitem, Hq. by intros [= _ <-].
  - revert Hrun. unfold add_item. run. rewrite Hitem. by intros [= _ <-].
Qed.

Lemma remove_item_leaves item qty w r w' :
  remove_item item qty w = (r, w') ->
  heap w' = heap w /\ files w' = files w /\ now w' = now w.
Proof.
  intros Hrun.
  destruct (require_item_cases item w)
    as [(s & -> & Hs & Hitem)|(_ & e & Hitem & _)].
  - destruct (as_int qty) as [q|] eqn:Hq.
    + destruct (Z.leb_spec (int_val q) 0) as [Hle|Hpos].
      * revert Hrun. unfold remove_item. run. rewrite Hitem, Hq.
        apply Z.leb_le in Hle. rewrite Hle. by intros [= _ <-].
      * destruct (Dict.get s (stock_data w)) as [cur|] eqn:Hcur.
        -- destruct (remove_item_ok w s qty q cur Hs Hq Hpos Hcur)
             as (w1 & Hok & _ & ? & ? & ?).
           rewrite Hok in Hrun. by injection Hrun as _ <-.
        -- revert Hrun. unfold remove_item. run. rewrite Hitem, Hq.
           apply Z.leb_gt in Hpos. rewrite Hpos. run.
           unfold Dict.mem. rewrite Hcur. cbn [negb]. by intros [= _ <-].
    + revert Hrun. unfold remove_item. run. rewrite Hitem, Hq. by intros [= _ <-].
  - revert Hrun. unfold remove_item. run. rewrite Hitem. by intros [= _ <-].
Qed.

(** X14.  Across one call of any method, whatever it returns: the files
    change only in a [save_data] call, and the lists of audit lines change
    only in an [add_item] call.  In particular [load_data], [remove_item],
    [get_qty] and [check_low_items] write no file and touch no list. *)
Theorem step_frame (w w' : world) :
  step w w' ->
  (files w' = files w
   \/ exists (codec : JsonCodec) file_path r, save_data file_path w = (r, w'))
  /\ (heap w' = heap w
      \/ exists item qty logs r, add_item item qty logs w = (r, w')).
Proof.
  intros [item qty logs r Hrun|item qty r Hrun|item r Hrun
         |threshold r Hrun|codec file_path r Hrun|codec file_path r Hrun].
  - destruct (add_item_leaves _ _ _ _ _ _ Hrun) as [? ?].
    split; [by left|]. right. by exists item, qty, logs, r.
  - destruct (remove_item_leaves _ _ _ _ _ Hrun) as (? & ? & ?).
    split; by left.
  - rewrite (get_qty_stock _ _ _ _ Hrun). split; by left.
  - rewrite (check_low_items_stock _ _ _ _ Hrun). split; by left.
  - destruct (load_data_loaded _ _ _ _ Hrun) as (_ & ? & ? & ?).
    split; by left.
  - split; [right; by exists codec, file_path, r|].
    left. by apply (save_data_heap _ _ _ _ Hrun).
Qed.

Lemma step_frame_witness :
  let w := set_files {[ inventory_json := File (json_text "{'x': 3}") ]} fresh_world in
  exists w', load_data inventory_json w = (Ok tt, w')
    /\ (files w' = files w
        \/ exists (codec : JsonCodec) file_path r, save_data file_path w = (r, w'))
    /\ (heap w' = heap w
        \/ exists item qty logs r, add_item item qty logs w = (r, w')).
Proof.
  intros w. eexists. split; [vm_compute; reflexivity|].
  apply (step_frame w).
  apply (step_load_data w _ Json.codec inventory_json (Ok tt)). vm_compute; reflexivity.
Defined.

(** ** The demonstration *)

Ltac io :=
  cbv beta iota zeta delta [mbind IO_bind mret IO_ret call print io_try];
  cbn [world_of stdout stock_data heap files now logged].

(** The calls of [_demo_flow] up to [inv.save_data()], on a new list at [l]. *)
Ltac demo_start l :=
  unfold _demo_flow; io;
  cbv beta iota zeta delta [new_list modify init set_heap set_stock_data];
  cbn [world_of stdout stock_data heap files now logged]; fold l;
  rewrite (add_item_exact _ apple (PyInt 10) (PInt 10) l) by (by vm_compute || done);
  cbn [world_of stdout stock_data heap files now logged];
  rewrite (add_item_negative _ banana (PyInt (-2)) (PInt (-2))) by (by vm_compute || done);
  change (isinstance _ ValueError) with true; io;
  cbv beta iota zeta delta [logging modify set_logged];
  cbn [world_of stdout stock_data heap files now logged];
  change (Dict.set apple _ []) with [(apple, PInt 10)];
  rewrite (remove_item_exact _ apple (PyInt 3) (PInt 3) (PInt 10)) by (by vm_compute || done);
  cbn [world_of stdout stock_data heap files now logged];
  change (if 0 <? _ then _ else _) with [(apple, PInt 7)];
  rewrite (remove_item_missing _ orange (PyInt 1) (PInt 1)) by (by vm_compute || done);
  change (isinstance _ KeyError) with true; io;
  cbv beta iota zeta delta [logging modify set_logged];
  cbn [world_of stdout stock_data heap files now logged];
  rewrite (get_qty_ok _ apple) by (by vm_compute);
  cbn [world_of stdout stock_data heap files now logged];
  rewrite (check_low_items_ok _ (PInt 5)) by (by vm_compute);
  cbn [world_of stdout stock_data heap files now logged].

(** X15.  [_demo_flow], started with any output so far, any lists, any clock
    and any files, provided [inventory.json] is not a directory and can be
    opened, ends normally: the rejected [add_item("banana", -2)] and the
    [KeyError] of [remove_item("orange", 1)] are caught and logged, the store
    ends as [{"apple": 7}], which is what [inventory.json] then holds and
    what is read back, the new list [logs] holds the one audit line of the
    first [add_item], and the lines printed are [Apple stock: 7],
    [Low items: []], the report of one item, and the audit trail. *)
Theorem demo_flow_runs (h : host) :
  let w := world_of h in
  let line := audit_line (isoformat_seconds (now w)) (PInt 10) apple in
  files w !! inventory_json <> Some Directory ->
  files w !! inventory_json <> Some NoAccess ->
  exists h' logs,
    _demo_flow h = (Ok tt, h')
    /\ heap w !! logs = None
    /\ heap (world_of h') = <[logs := [line]]> (heap w)
    /\ stock_data (world_of h') = [(apple, PInt 7)]
    /\ files (world_of h')
       = <[inventory_json := File (Json.dumps [(apple, PInt 7)])]> (files w)
    /\ logged (world_of h')
       = logged w
         ++ [LogRecord DEBUG "Added %d of %s (new total=%d)"
               [ArgValue (PyInt 10); ArgValue (PyStr apple); ArgValue (PyInt 10)];
             LogRecord INFO "Rejected negative quantity for banana" [];
             LogRecord DEBUG "Removed %d of %s (remaining=%s)"
               [ArgValue (PyInt 3); ArgValue (PyStr apple); ArgValue (PyInt 7)];
             LogRecord INFO "Tried to remove non-existent item: %s"
               [ArgExn (Exn KeyError (py "Item 'orange' not found in inventory"))];
             LogRecord INFO "Saved %d items to %s"
               [ArgValue (PyInt 1); ArgValue (PyStr inventory_json)];
             LogRecord INFO "Loaded %d items from %s"
               [ArgValue (PyInt 1); ArgValue (PyStr inventory_json)]]
    /\ stdout h'
       = stdout h ++ [[PyStr (py "Apple stock:"); PyInt 7];
                      [PyStr (py "Low items:"); PyList []];
                      [PyStr (py "Items Report")];
                      [PyStr (py "apple -> 7")];
                      [PyStr (10%N :: py "Audit trail:")];
                      [PyStr line]].
Proof.
  destruct h as [out [stock hp fs clock lg]]. intros w line. subst w line.
  cbn [world_of now files heap stdout logged]. intros Hdir Hacc.
  set (l := fresh (dom hp)).
  assert (hp !! l = None) as Hfresh by apply not_elem_of_dom, is_fresh.
  demo_start l.
  rewrite (save_data_exact _ inventory_json); [|done|done|by vm_compute].
  cbn [world_of stdout stock_data heap files now logged].
  rewrite (load_data_exact _ inventory_json (Json.dumps [(apple, PInt 7)])
             [(PyStr apple, PyInt 7)]);
    [|apply lookup_insert_eq|by vm_compute].
  cbn [world_of stdout stock_data heap files now logged].
  rewrite print_data_exact.
  cbn [world_of stdout stock_data heap files now logged].
  cbv beta iota zeta delta [reads]. cbn [world_of stdout stock_data heap files now logged].
  rewrite alter_insert_eq, lookup_insert_eq. cbn [default from_option app]. unfold id.
  cbv beta iota zeta delta [mbind IO_bind mret IO_ret print for_each].
  cbn [world_of stdout stock_data heap files now logged].
  eexists _, l. split; [reflexivity|]. cbn [world_of stdout stock_data heap files now logged].
  split; [done|]. split; [done|]. split; [done|]. split; [done|].
  split; rewrite <- ?app_assoc; reflexivity.
Qed.

Lemma demo_flow_runs_witness :
  let h := Host [] fresh_world in
  let line := py "2024-03-09T12:00:00: Added 10 of apple" in
  exists h' logs,
    _demo_flow h = (Ok tt, h')
    /\ heap (world_of h') = {[ logs := [line] ]}
    /\ stock_data (world_of h') = [(apple, PInt 7)]
    /\ files (world_of h')
       = {[ inventory_json := File (Json.dumps [(apple, PInt 7)]) ]}
    /\ stdout h'
       = [[PyStr (py "Apple stock:"); PyInt 7];
          [PyStr (py "Low items:"); PyList []];
          [PyStr (py "Items Report")];
          [PyStr (py "apple -> 7")];
          [PyStr (10%N :: py "Audit trail:")];
          [PyStr line]].
Proof.
  intros h line.
  destruct (demo_flow_runs h) as (h' & logs & Hrun & _ & Hheap & Hstock & Hfiles & _ & Hout).
  - by vm_compute.
  - by vm_compute.
  - exists h', logs. split; [exact Hrun|]. split; [exact Hheap|]. split; [exact Hstock|].
    split; [exact Hfiles|]. exact Hout.
Defined.

(** X16.  When [inventory.json] is a directory or cannot be opened,
    [_demo_flow] does not end normally: the [OSError] of [save_data] is not
    caught by either [try] of the function and reaches the caller, after
    the first two lines have been printed; no file is written, the store
    holds [{"apple": 7}] and nothing is reported. *)
Theorem demo_flow_save_fails (h : host) :
  let w := world_of h in
  files w !! inventory_json = Some Directory
  \/ files w !! inventory_json = Some NoAccess ->
  exists e h',
    _demo_flow h = (Raise e, h')
    /\ isinstance e OSError = true
    /\ stock_data (world_of h') = [(apple, PInt 7)]
    /\ files (world_of h') = files w
    /\ stdout h'
       = stdout h ++ [[PyStr (py "Apple stock:"); PyInt 7];
                      [PyStr (py "Low items:"); PyList []]].
Proof.
  destruct h as [out [stock hp fs clock lg]]. intros w. subst w.
  cbn [world_of now files heap stdout logged]. intros Hnode.
  set (l := fresh (dom hp)).
  demo_start l.
  match goal with
  | |- context [save_data ?p ?w] =>
      destruct (save_data_unwritable p w Hnode) as (e & -> & He)
  end.
  cbn [world_of stdout stock_data heap files now logged].
  exists e. eexists. split; [reflexivity|].
  cbn [world_of stdout stock_data heap files now logged].
  split; [done|]. split; [done|]. split; [done|].
  by rewrite <- app_assoc.
Qed.

Lemma demo_flow_save_fails_witness :
  let h := Host [] (set_files {[ inventory_json := Directory ]} fresh_world) in
  exists e h',
    _demo_flow h = (Raise e, h')
    /\ isinstance e OSError = true
    /\ stock_data (world_of h') = [(apple, PInt 7)]
    /\ files (world_of h') = {[ inventory_json := Directory ]}
    /\ stdout h'
       = [[PyStr (py "Apple stock:"); PyInt 7];
          [PyStr (py "Low items:"); PyList []]].
Proof.
  intros h. apply (demo_flow_save_fails h). left. by vm_compute.
Defined.
